(** * MovieSentiments: the Rotten Tomatoes review scraper

    A shallow embedding of

    - [nlpwebapp/data_collection/RottenTomatoesScraper/scraper.py],
    - [nlpwebapp/RottenTomatoesScraper/RottenTomatoesScraper.py],
    - [nlpwebapp/data_collection/top_100_movie_reviews.py],

    and the properties of the fetch-and-extract pipeline that hold (or
    fail) on it.  Python exceptions are values of [exn]; a call that may
    raise returns a [result].  Parsed pages are BeautifulSoup trees. *)

From Stdlib Require Import QArith.
From stdpp Require Import base list strings gmap pretty.
From Equations Require Import Equations.

Local Open Scope string_scope.
Local Open Scope list_scope.
Local Set Warnings "-register-all".

(** ** Python exceptions and results *)

Inductive exn : Type :=
| AttributeError (msg : string)
| TypeError (msg : string)
| KeyError (key : string)
| IndexError (msg : string)
| ValueError (msg : string)
| HTTPError (msg : string)
| NotFoundError (missing : string).

Inductive result (A : Type) : Type :=
| Ok (a : A)
| Raise (e : exn).
Arguments Ok {A} a.
Arguments Raise {A} e.

Definition rbind {A B} (r : result A) (k : A -> result B) : result B :=
  match r with
  | Ok a => k a
  | Raise e => Raise e
  end.

Notation "'let!' x ':=' r 'in' k" := (rbind r (fun x => k))
  (at level 10, x name, r at level 100, k at level 200).

(** A list comprehension whose element expression may raise: elements are
    evaluated left to right and the first exception aborts the whole
    comprehension. *)
Fixpoint comprehension {A B} (f : A -> result B) (l : list A) : result (list B) :=
  match l with
  | [] => Ok []
  | x :: l' => let! y := f x in let! ys := comprehension f l' in Ok (y :: ys)
  end.

(** [__str__] of [NotFoundError] in RottenTomatoesScraper.py. *)
Definition NotFoundError_str (missing : string) : string :=
  "No " +:+ missing +:+ " was/were found in page.".

(** The message CPython attaches to an attribute access on [None]. *)
Definition NoneType_has_no (attr : string) : exn :=
  AttributeError ("'NoneType' object has no attribute '" +:+ attr +:+ "'").

(** ** Python string slicing

    [s[:stop]]: a negative [stop] counts from the end, and both ends are
    clamped to the string. *)
Definition slice_stop (s : string) (stop : Z) : string :=
  let n := Z.of_nat (String.length s) in
  let k := if (stop <? 0)%Z then Z.max 0 (n + stop) else Z.min stop n in
  String.substring 0 (Z.to_nat k) s.

(** ** BeautifulSoup trees

    A page element is a [Tag] or a [NavigableString].  Of a tag's
    attributes only [class] is read by the scraper; lxml delivers it as
    the list of its whitespace-separated tokens, and [None] stands for a
    tag that has no [class] attribute. *)
Inductive Node : Type :=
| Tag (name : string) (cls : option (list string)) (children : list Node)
| NavigableString (s : string).

(** The parsed document is the root tag. *)
Definition Soup : Type := Node.

Definition contents (n : Node) : list Node :=
  match n with
  | Tag _ _ cs => cs
  | NavigableString _ => []
  end.

(** [tag.descendants]: every element below the tag, in document order. *)
Fixpoint descendants (n : Node) : list Node :=
  match n with
  | Tag _ _ cs =>
      (fix go (l : list Node) : list Node :=
         match l with
         | [] => []
         | c :: l' => c :: descendants c ++ go l'
         end) cs
  | NavigableString _ => []
  end.

(** [tag.text]: all strings below the tag, concatenated. *)
Fixpoint text (n : Node) : string :=
  match n with
  | Tag _ _ cs =>
      (fix go (l : list Node) : string :=
         match l with
         | [] => ""
         | c :: l' => text c +:+ go l'
         end) cs
  | NavigableString s => s
  end.

Definition has_name (name : option string) (n : Node) : bool :=
  match n, name with
  | Tag _ _ _, None => true
  | Tag t _ _, Some x => String.eqb x t
  | NavigableString _, _ => false
  end.

(** [class_=c] selects the tags one of whose class tokens is [c]. *)
Definition has_class (c : string) (n : Node) : bool :=
  match n with
  | Tag _ (Some tokens) _ => existsb (String.eqb c) tokens
  | _ => false
  end.

(** [tag.find_all(name, class_=c, recursive=r)]. *)
Definition find_all (name : option string) (class_ : string) (recursive : bool)
    (t : Node) : list Node :=
  List.filter (fun n => has_name name n && has_class class_ n)
    (if recursive then descendants t else contents t).

(** [tag.find(name, class_=c)]: the first match in document order, or
    Python's [None]. *)
Definition find (name : option string) (class_ : string) (t : Node) : option Node :=
  head (find_all name class_ true t).

(** ** BeautifulSoup trees with their attributes

    URL discovery reads the [href] of links, so the index page is kept as
    a tree whose tags carry, besides [class], the dict of their
    single-valued attributes. *)
Inductive Element : Type :=
| ETag (name : string) (cls : option (list string)) (attrs : gmap string string)
    (children : list Element)
| EString (s : string).

(** The same tree, as the scraper sees it. *)
Fixpoint forget (e : Element) : Node :=
  match e with
  | ETag name cls _ children => Tag name cls (map forget children)
  | EString s => NavigableString s
  end.

Fixpoint element_descendants (e : Element) : list Element :=
  match e with
  | ETag _ _ _ cs =>
      (fix go (l : list Element) : list Element :=
         match l with
         | [] => []
         | c :: l' => c :: element_descendants c ++ go l'
         end) cs
  | EString _ => []
  end.

Definition is_tag (name : string) (e : Element) : bool :=
  match e with
  | ETag t _ _ _ => String.eqb name t
  | EString _ => false
  end.

(** [class_=None] matches a tag only when it has no [class] attribute. *)
Definition lacks_class (e : Element) : bool :=
  match e with
  | ETag _ None _ _ => true
  | _ => false
  end.

(** [tag.a], that is [tag.find("a")]: the first descendant tag of that
    name, or Python's [None]; a [NavigableString] has no such attribute. *)
Definition child_tag (name : string) (e : Element) : result (option Element) :=
  match e with
  | ETag _ _ _ _ => Ok (head (List.filter (is_tag name) (element_descendants e)))
  | EString _ =>
      Raise (AttributeError
               ("'NavigableString' object has no attribute '" +:+ name +:+ "'"))
  end.

(** [x[key]] where [x] is what [tag.find] returned: [None] is not
    subscriptable, a string is not indexed by strings (both [TypeError]),
    and a tag raises [KeyError] for an attribute it does not have. *)
Definition subscript (x : option Element) (key : string) : result string :=
  match x with
  | None => Raise (TypeError "'NoneType' object is not subscriptable")
  | Some (EString _) => Raise (TypeError "string indices must be integers")
  | Some (ETag _ _ attrs _) =>
      match attrs !! key with
      | Some v => Ok v
      | None => Raise (KeyError key)
      end
  end.

(** ** calculate_score

    The same in both scraper files.  The argument is any page element; a
    [NavigableString] is not an instance of [bs4.element.Tag].
    [star_display["class"]] raises [KeyError] on a tag without that
    attribute and [...[0]] raises [IndexError] on an empty token list.
    Counts are integers and the half weight is [0.5], so the float
    [full_star_count + half_star_count * 0.5] is the exact rational. *)
Definition calculate_score (star_display : Node) : result Q :=
  match star_display with
  | NavigableString _ => Raise (TypeError "Input must be of type bs4.element.Tag")
  | Tag _ None _ => Raise (KeyError "class")
  | Tag _ (Some []) _ => Raise (IndexError "list index out of range")
  | Tag _ (Some (c0 :: _)) _ =>
      if negb (String.eqb c0 "star-display")
      then Raise (TypeError "Tag must be of class 'star-display'")
      else
        let full_star_count :=
          length (find_all None "star-display__filled" false star_display) in
        let half_star_count :=
          length (find_all None "star-display__half" false star_display) in
        let score :=
          (inject_Z (Z.of_nat full_star_count)
           + inject_Z (Z.of_nat half_star_count) * (1 # 2))%Q in
        Ok score
  end.

(** ** The extraction methods

    The two scraper files differ only in the exception each method raises
    when it finds nothing, so the methods are written once over those
    three exceptions. *)
Section Extraction.
Variables no_movie_title no_review_text no_star_display : exn.

Definition extract_movie_title (soup : Soup) : result string :=
  match find (Some "h2") "panel-heading" soup with
  | None => Raise (NoneType_has_no "text")
  | Some h2 =>
      let title_dirty := text h2 in
      if String.eqb title_dirty "" then Raise no_movie_title
      else
        let title := slice_stop title_dirty (-8) in
        Ok title
  end.

Definition extract_review_text (soup : Soup) : result (list string) :=
  let reviews := find_all (Some "p") "audience-reviews__review" true soup in
  match reviews with
  | [] => Raise no_review_text
  | _ =>
      let review_text := map text reviews in
      Ok review_text
  end.

Definition extract_review_scores (soup : Soup) : result (list Q) :=
  let star_displays := find_all None "star-display" true soup in
  match star_displays with
  | [] => Raise no_star_display
  | _ =>
      let! review_scores := comprehension calculate_score star_displays in
      Ok review_scores
  end.
End Extraction.

(** ** HTTP responses and Pandas-compatible dictionaries *)

(** A [requests.Response], over the type of page contents.  [elapsed] is
    [response.elapsed.total_seconds()]. *)
Record Response {bytes : Type} : Type := {
  url : string;
  status_code : Z;
  content : bytes;
  elapsed : Q;
}.
Arguments Response bytes : clear implicits.

(** [response.raise_for_status()]; the message is abridged to its kind. *)
Definition raise_for_status {bytes} (src : Response bytes) : result unit :=
  if ((400 <=? status_code src) && (status_code src <? 500))%Z
  then Raise (HTTPError "Client Error")
  else if ((500 <=? status_code src) && (status_code src <? 600))%Z
  then Raise (HTTPError "Server Error")
  else Ok tt.

Inductive column : Type :=
| Strings (l : list string)
| Numbers (l : list Q).

Definition column_len (c : column) : nat :=
  match c with
  | Strings l => length l
  | Numbers l => length l
  end.

(** A dict literal with string keys, in insertion order. *)
Definition dict : Type := list (string * column).

Fixpoint dict_get (d : dict) (key : string) : option column :=
  match d with
  | [] => None
  | (k, v) :: d' => if String.eqb k key then Some v else dict_get d' key
  end.

(** ** data_collection/RottenTomatoesScraper/scraper.py *)
Module scraper.

Definition no_movie_title : exn :=
  AttributeError "No movie title was found in the content.".
Definition no_review_text : exn :=
  AttributeError "No review text was found in the content.".
Definition no_star_display : exn :=
  AttributeError "No star-display tags were found in the content.".

Record RottenTomatoesScraper : Type := {
  review_scores : list Q;
  review_text : list string;
  title : string;
  titles : list string;
}.

Section Init.
Context {bytes : Type} (BeautifulSoup : bytes -> Soup).

Definition __init__ (content : bytes) : result RottenTomatoesScraper :=
  let soup := BeautifulSoup content in
  let! review_scores := extract_review_scores no_star_display soup in
  let! review_text := extract_review_text no_review_text soup in
  let! title := extract_movie_title no_movie_title soup in
  let titles := map (fun review => title) review_scores in
  Ok {| review_scores := review_scores; review_text := review_text;
        title := title; titles := titles |}.
End Init.

Definition to_dict (self : RottenTomatoesScraper) : dict :=
  [ ("Title", Strings (titles self));
    ("Review Text", Strings (review_text self));
    ("Score", Numbers (review_scores self)) ].

End scraper.

(** ** RottenTomatoesScraper/RottenTomatoesScraper.py *)
Module RottenTomatoesScraper.

Definition no_movie_title : exn := NotFoundError "movie title".
Definition no_review_text : exn := NotFoundError "review text".
Definition no_star_display : exn := NotFoundError "star-display tags".

Record RottenTomatoesScraper : Type := {
  review_scores : list Q;
  review_text : list string;
  title : string;
}.

Section Init.
Context {bytes : Type} (BeautifulSoup : bytes -> Soup).
(** [requests.get]: the page behind a URL, or the exception of a
    request that could not be made. *)
Variable requests_get : string -> result (Response bytes).

Definition fetch_src_content (source : string) : result bytes :=
  let! src := requests_get source in
  let! _ := raise_for_status src in
  Ok (content src).

Definition __init__ (source : string) : result RottenTomatoesScraper :=
  let! src_content := fetch_src_content source in
  let soup := BeautifulSoup src_content in
  let! review_scores := extract_review_scores no_star_display soup in
  let! review_text := extract_review_text no_review_text soup in
  let! title := extract_movie_title no_movie_title soup in
  Ok {| review_scores := review_scores; review_text := review_text;
        title := title |}.
End Init.

Definition to_dict (self : RottenTomatoesScraper) : dict :=
  let title := map (fun review => title self) (review_scores self) in
  [ ("Title", Strings title);
    ("Review Text", Strings (review_text self));
    ("Scores", Numbers (review_scores self)) ].

End RottenTomatoesScraper.

(** ** data_collection/top_100_movie_reviews.py *)
Module top_100_movie_reviews.

(** A header dict. *)
Definition Headers : Type := list (string * string).

Definition safari_header : Headers :=
  [ ("User-Agent", "Mozilla/5.0 (Macintosh; Intel Mac OS X 10_15_4) AppleWebKit/605.1.15 (KHTML, like Gecko) Version/13.1 Safari/605.1.15");
    ("Accept", "text/html,application/xhtml+xml,application/xml;q=0.9,*/*;q=0.8");
    ("Accept-Charset", "ISO-8859-1,utf-8;q=0.7,*;q=0.3");
    ("Accept-Encoding", "none");
    ("Accept-Language", "en-CA,en;q=0.8");
    ("Connection", "keep-alive") ].

Definition firefox_header : Headers :=
  [ ("User-Agent", "Mozilla/5.0 (Macintosh; Intel Mac OS X 10.6; rv:16.0) Gecko/20100101 Firefox/16.0");
    ("Accept", "text/html,application/xhtml+xml,application/xml;q=0.9,*/*;q=0.8");
    ("Accept-Charset", "ISO-8859-1,utf-8;q=0.7,*;q=0.3");
    ("Accept-Encoding", "none");
    ("Accept-Language", "en-CA,en;q=0.8");
    ("Connection", "keep-alive") ].

(** [if not headers: headers = safari_header]: [None] and the empty
    dict are both falsy. *)
Definition default_headers (headers : option Headers) : Headers :=
  match headers with
  | None | Some [] => safari_header
  | Some h => h
  end.

(** One call of [grequests.map]: the headers and URLs it was issued for. *)
Record Batch : Type := {
  batch_headers : Headers;
  batch_urls : list string;
}.

(** The batches issued so far, oldest first. *)
Definition World : Type := list Batch.

(** [int(x)] on a float truncates towards zero. *)
Definition int (x : Q) : Z := Z.quot (Qnum x) (Z.pos (Qden x)).

Definition RT_url : string := "https://www.rottentomatoes.com".

Section Discovery.
Context {bytes : Type}.

(** [BeautifulSoup(content, "lxml")], with every attribute kept, and
    [requests.get(url, headers=headers)], which returns the response or
    raises when the request cannot be made. *)
Variable lxml : bytes -> Element.
Variable requests_get : string -> Headers -> result (Response bytes).

Definition get_top_100_movie_tags (year : Z) (headers : option Headers)
    : result (list Element) :=
  let headers := default_headers headers in
  let top_movies_page := "/top/bestofrt/?year=" +:+ pretty year in
  let! src := requests_get (RT_url +:+ top_movies_page) headers in
  let! _ := raise_for_status src in
  let content := content src in
  let soup := lxml content in
  let movie_tags :=
    List.filter (fun e => is_tag "tr" e && lacks_class e) (element_descendants soup) in
  match movie_tags with
  | [] => Raise (AttributeError "No movie tags were found, check URL?")
  | _ => Ok movie_tags
  end.

Definition user_review_page : string := "/reviews?type=user".

(** The [for tag in movie_tags] loop, on the list [urls] it appends to.
    Only a [TypeError] from [tag.a["href"]] is caught. *)
Fixpoint gather_urls (movie_tags : list Element) (urls : list string)
    : result (list string) :=
  match movie_tags with
  | [] => Ok urls
  | tag :: rest =>
      match (let! a := child_tag "a" tag in subscript a "href") with
      | Raise (TypeError _) => gather_urls rest urls
      | Raise e => Raise e
      | Ok movie_path =>
          let url := RT_url +:+ movie_path +:+ user_review_page in
          gather_urls rest (urls ++ [url])
      end
  end.

Definition get_user_review_urls_from_tags (movie_tags : list Element)
    : result (list string) :=
  gather_urls movie_tags [].

End Discovery.

Section Fetch.
Context {bytes : Type}.

(** The network: what the request for a URL under given headers yields
    in the [k]-th batch of the run ([None]: the request raised, for
    instance a connection error or a timeout), and the order in which the
    jobs of that batch finish.  The pool size of 10 bounds how many jobs
    run at once and has no bearing on the outcome. *)
Variable send : nat -> Headers -> string -> option (Response bytes).
Variable completion : nat -> list nat.

(** Modelled from the spec: the grequests library is not part of the
    sources.  Each request of a batch has a result slot of its own,
    addressed by its index in the batch (spec section 5); here the slot is
    the [response] field of the request object, [None] until its job is
    done. *)
Record AsyncRequest : Type := {
  req_url : string;
  req_headers : Headers;
  response : option (Response bytes);
}.

(** Modelled from the spec: [grequests.get] only builds the request. *)
Definition grequests_get (url : string) (headers : Headers) : AsyncRequest :=
  {| req_url := url; req_headers := headers; response := None |}.

(** Modelled from the spec: the job of a request stores what the network
    answered in the slot of that request; a request that raised leaves
    [None] there. *)
Definition run_job (k : nat) (r : AsyncRequest) : AsyncRequest :=
  {| req_url := req_url r; req_headers := req_headers r;
     response := send k (req_headers r) (req_url r) |}.

(** Modelled from the spec: the [i]-th job of the batch finishes. *)
Definition job_done (k : nat) (requests : list AsyncRequest) (i : nat)
    : list AsyncRequest :=
  match requests !! i with
  | Some r => <[ i := run_job k r ]> requests
  | None => requests
  end.

(** Modelled from the spec: [grequests.map] lets the jobs finish in their
    order of completion, waits for all of them, and then collects the
    slots in request order, not in completion order (spec section 5).  A
    slot left at [None] contributes what the exception handler returns. *)
Definition grequests_map (k : nat) (requests : list AsyncRequest)
    (exception_handler : AsyncRequest -> option (Response bytes))
    : list (option (Response bytes)) :=
  let requests := foldl (job_done k) requests (completion k) in
  map (fun request =>
         match response request with
         | Some r => Some r
         | None => exception_handler request
         end) requests.

(** [handler] prints the exception; its value is that of [print], which
    is [None]. *)
Definition handler (request : AsyncRequest) : option (Response bytes) := None.

(** The [for response in responses] loop of [get_responses], up to the
    point where it leaves the loop: it runs to the end with the summed
    time, meets a 403, or raises on an element that is [None]. *)
Inductive scanned : Type :=
| Completed (time : Z)
| Forbidden
| Crashed (e : exn).

Fixpoint scan (responses : list (option (Response bytes))) (time : Z) : scanned :=
  match responses with
  | [] => Completed time
  | None :: _ => Crashed (NoneType_has_no "elapsed")
  | Some response :: rest =>
      let time := (time + int (elapsed response))%Z in
      if (status_code response =? 403)%Z then Forbidden else scan rest time
  end.

(** The statements of [get_responses] before the loop: one batch is
    issued and recorded. *)
Definition issue (urls : list string) (headers : option Headers) (w : World)
    : list (option (Response bytes)) * World :=
  let headers := default_headers headers in
  let reqs := map (fun url => grequests_get url headers) urls in
  let responses := grequests_map (length w) reqs handler in
  (responses, w ++ [ {| batch_headers := headers; batch_urls := urls |} ]).

Definition retries_left (retry : bool) : nat := if retry then 0 else 1.

Equations get_responses (urls : list string) (headers : option Headers)
    (retry : bool) (w : World)
    : result (list (option (Response bytes))) * World
    by wf (retries_left retry) lt :=
  get_responses urls headers retry w with issue urls headers w => {
    | (responses, w') with scan responses 0, retry => {
      | Crashed e, _ => (Raise e, w')
      | Forbidden, false => get_responses urls (Some firefox_header) true w'
      | Forbidden, true =>
          (Raise (HTTPError "Received 403 error again: check size, headers, and URL's"), w')
      | Completed time, _ =>
          match responses with
          | [] => (Raise (AttributeError "No responses were recieved"), w')
          | _ => (Ok responses, w')
          end } }.

End Fetch.

(** Modelled from the spec: pandas is not part of the sources.  A data
    frame is a set of named columns of one common length (spec section
    3). *)
Record DataFrame : Type := { df_columns : dict }.

(** Modelled from the spec: [DataFrame.from_dict] refuses columns of
    different lengths with a [ValueError]. *)
Definition DataFrame_from_dict (data : dict) : result DataFrame :=
  match data with
  | [] => Ok {| df_columns := [] |}
  | (_, c) :: rest =>
      if forallb (fun kv => Nat.eqb (column_len (snd kv)) (column_len c)) rest
      then Ok {| df_columns := data |}
      else Raise (ValueError "arrays must all be same length")
  end.

Section Assemble.
Context {bytes : Type} (BeautifulSoup : bytes -> Soup).

(** The [for response in responses] loop of [generate_df], on the
    three accumulated lists. *)
Fixpoint parse_reviews (responses : list (option (Response bytes)))
    (titles review_text : list string) (review_scores : list Q)
    : result (list string * list string * list Q) :=
  match responses with
  | [] => Ok (titles, review_text, review_scores)
  | None :: _ => Raise (NoneType_has_no "content")
  | Some response :: rest =>
      let! movie_data := scraper.__init__ BeautifulSoup (content response) in
      let titles := titles ++ scraper.titles movie_data in
      let review_text := review_text ++ scraper.review_text movie_data in
      let review_scores := review_scores ++ scraper.review_scores movie_data in
      parse_reviews rest titles review_text review_scores
  end.

Definition generate_df (responses : list (option (Response bytes)))
    : result DataFrame :=
  let! parsed := parse_reviews responses [] [] [] in
  match parsed with
  | (titles, review_text, review_scores) =>
      let data :=
        [ ("Title", Strings titles);
          ("Review Text", Strings review_text);
          ("Review Score", Numbers review_scores) ] in
      DataFrame_from_dict data
  end.
End Assemble.

Section Main.
Context {bytes : Type}.
Variable lxml : bytes -> Element.
Variable requests_get : string -> Headers -> result (Response bytes).
Variable send : nat -> Headers -> string -> option (Response bytes).
Variable completion : nat -> list nat.

(** The script's [__main__] block; its value is the frame that
    [df.to_csv] writes.  The scraper parses with the same parser and
    reads no attribute but [class]. *)
Definition main (w : World) : result DataFrame * World :=
  match get_top_100_movie_tags lxml requests_get 2019 None with
  | Raise e => (Raise e, w)
  | Ok movie_tags_2019 =>
      match get_user_review_urls_from_tags movie_tags_2019 with
      | Raise e => (Raise e, w)
      | Ok urls =>
          match get_responses send completion urls None false w with
          | (Raise e, w') => (Raise e, w')
          | (Ok responses, w') =>
              (generate_df (fun content => forget (lxml content)) responses, w')
          end
      end
  end.
End Main.

End top_100_movie_reviews.

(** * Statements

    The notions the properties are stated with, then sample pages and
    networks. *)

Import top_100_movie_reviews.

(** [movie_data] is what the constructor made of the page of [response]. *)
Definition scraped {bytes : Type} (BeautifulSoup : bytes -> Soup)
    (response : Response bytes) (movie_data : scraper.RottenTomatoesScraper) : Prop :=
  scraper.__init__ BeautifulSoup (content response) = Ok movie_data.

(** [gevent.joinall]: each of the [n] jobs of batch [k] finishes, once, in
    whatever order. *)
Definition jobs_finish (completion : nat -> list nat) (k n : nat) : Prop :=
  completion k ≡ₚ seq 0 n.

Definition met_403 (s : scanned) : bool :=
  match s with
  | Forbidden => true
  | _ => false
  end.

(** The first 403 of a batch is reached when every request listed before
    it was answered. *)
Definition reaches_403 {bytes : Type} (responses : list (option (Response bytes)))
    : Prop :=
  exists answered blocked rest,
    responses = map Some answered ++ Some blocked :: rest /\
    Forall (fun r => status_code r <> 403%Z) answered /\
    status_code blocked = 403%Z.

(** [f] filled and [h] half slots, as a score. *)
Definition half_units (f h : nat) : Q :=
  (inject_Z (Z.of_nat f) + inject_Z (Z.of_nat h) * (1 # 2))%Q.

(** The rating widgets and review paragraphs of a page, as the scraper
    selects them. *)
Definition rating_widgets (soup : Soup) : list Node :=
  find_all None "star-display" true soup.
Definition review_nodes (soup : Soup) : list Node :=
  find_all (Some "p") "audience-reviews__review" true soup.

(** ** Sample pages *)

Definition filled : Node := Tag "span" (Some ["star-display__filled"]) [].
Definition half : Node := Tag "span" (Some ["star-display__half"]) [].
Definition star_display (slots : list Node) : Node :=
  Tag "span" (Some ["star-display"]) slots.
Definition review (body : string) : Node :=
  Tag "p" (Some ["audience-reviews__review"]) [NavigableString body].
Definition panel_heading (heading : string) : Node :=
  Tag "h2" (Some ["panel-heading"]) [NavigableString heading].
Definition page (body : list Node) : Soup :=
  Tag "[document]" None [Tag "html" None [Tag "body" None body]].

(** A tag that carries no [class] attribute at all. *)
Definition plain_div : Node := Tag "div" None [].

(** A widget whose [star-display] token is not the first of its class. *)
Definition large_star_display : Node :=
  Tag "span" (Some ["large"; "star-display"]) [filled; filled].

(** Six filled slots in one rating widget. *)
Definition six_stars : Node :=
  star_display [filled; filled; filled; filled; filled; filled].

(** A filled slot wrapped in another tag is not a direct child. *)
Definition nested_star : Node :=
  star_display [filled; Tag "span" None [filled; half]; half; NavigableString " "].

(** A page whose heading is the decorative suffix alone. *)
Definition suffix_only_page : Soup :=
  page [panel_heading " Reviews"; star_display [filled]; review "Fine."].

(** A page without a heading. *)
Definition untitled_page : Soup :=
  page [star_display [filled]; review "Fine."].

(** Three rating widgets, two review paragraphs. *)
Definition unaligned_page : Soup :=
  page [ panel_heading "Parasite Reviews";
         star_display [filled; filled; filled; filled; half]; review "Superb.";
         star_display [filled; filled]; review "Too long.";
         star_display [half] ].

(** A page is served by a request that always answers 200 with it. *)
Definition served {bytes : Type} (address : string) (body : bytes) : Response bytes :=
  {| url := address; status_code := 200; content := body; elapsed := 3 # 2 |}.

Definition requests_get_unaligned (source : string) : result (Response Soup) :=
  Ok (served source unaligned_page).

Definition parasite_page : Soup :=
  page [ panel_heading "Parasite Reviews";
         star_display [filled; filled; filled; filled]; review "Superb.";
         star_display [filled; filled; filled; half]; review "Gripping." ].

Definition joker_page : Soup :=
  page [ panel_heading "Joker Reviews";
         star_display [filled; filled]; review "Bleak." ].

(** A page without a single rating widget. *)
Definition unrated_page : Soup :=
  page [ panel_heading "Cats Reviews"; review "No stars given." ].

Definition five_responses : list (option (Response Soup)) :=
  map Some [ served "/m/parasite_2019" parasite_page;
             served "/m/joker_2019" joker_page;
             served "/m/cats_2019" unrated_page;
             served "/m/joker_2019" joker_page;
             served "/m/parasite_2019" parasite_page ].

(** ** Sample networks *)

Definition url_a : string := "https://www.rottentomatoes.com/m/parasite_2019/reviews?type=user".
Definition url_b : string := "https://www.rottentomatoes.com/m/joker_2019/reviews?type=user".
Definition url_c : string := "https://www.rottentomatoes.com/m/cats_2019/reviews?type=user".

Definition blocked (address : string) : Response Soup :=
  {| url := address; status_code := 403; content := page []; elapsed := 1 # 4 |}.

(** No request gets through. *)
Definition dead_network (k : nat) (headers : Headers) (address : string)
    : option (Response Soup) :=
  None.

(** Blocks [url_b] in the first batch only. *)
Definition wary_network (k : nat) (headers : Headers) (address : string)
    : option (Response Soup) :=
  if Nat.eqb k 0 && String.eqb address url_b then Some (blocked address)
  else Some (served address parasite_page).

(** Blocks [url_b] in every batch. *)
Definition hostile_network (k : nat) (headers : Headers) (address : string)
    : option (Response Soup) :=
  if String.eqb address url_b then Some (blocked address)
  else Some (served address parasite_page).

(** The request for [url_a] cannot be made and [url_b] is blocked. *)
Definition flaky_network (k : nat) (headers : Headers) (address : string)
    : option (Response Soup) :=
  if String.eqb address url_a then None
  else if String.eqb address url_b then Some (blocked address)
  else Some (served address parasite_page).

(** The second of three requests is the last to complete. *)
Definition b_last (k : nat) : list nat := [0; 2; 1].
Definition in_turn (n k : nat) : list nat := seq 0 n.

(** Requests that are answered with a block, and with a page without a
    heading. *)
Definition requests_get_blocked (source : string) : result (Response Soup) :=
  Ok (blocked source).
Definition requests_get_untitled (source : string) : result (Response Soup) :=
  Ok (served source untitled_page).

(** ** Notions for the remaining properties *)

(** A tag that [calculate_score] takes for a rating widget. *)
Definition accepted_widget (n : Node) : Prop :=
  exists name more slots, n = Tag name (Some ("star-display" :: more)) slots.

(** An element without what is below it. *)
Definition prune (n : Node) : Node :=
  match n with
  | Tag name cls _ => Tag name cls []
  | NavigableString s => NavigableString s
  end.

(** One review as markup: a widget of [f] filled and [h] half slots,
    followed by the paragraph of the review. *)
Definition review_block (r : nat * nat * string) : list Node :=
  match r with
  | (f, h, body) => [star_display (repeat filled f ++ repeat half h); review body]
  end.

Definition review_score (r : nat * nat * string) : Q :=
  match r with
  | (f, h, _) => half_units f h
  end.

Definition review_body (r : nat * nat * string) : string :=
  match r with
  | (_, _, body) => body
  end.

(** A review page made of a heading and one block per review. *)
Definition review_page (heading : string) (reviews : list (nat * nat * string)) : Soup :=
  page (panel_heading heading :: concat (map review_block reviews)).

(** What an object of scraper.py holds, as an object of
    RottenTomatoesScraper.py. *)
Definition older (self : scraper.RottenTomatoesScraper)
    : RottenTomatoesScraper.RottenTomatoesScraper :=
  {| RottenTomatoesScraper.review_scores := scraper.review_scores self;
     RottenTomatoesScraper.review_text := scraper.review_text self;
     RottenTomatoesScraper.title := scraper.title self |}.

(** The exception of scraper.py, as RottenTomatoesScraper.py raises it:
    the three not-found errors change class, everything else is the same. *)
Definition older_exn (e : exn) : exn :=
  match e with
  | AttributeError msg =>
      if String.eqb msg "No star-display tags were found in the content."
      then RottenTomatoesScraper.no_star_display
      else if String.eqb msg "No review text was found in the content."
      then RottenTomatoesScraper.no_review_text
      else if String.eqb msg "No movie title was found in the content."
      then RottenTomatoesScraper.no_movie_title
      else e
  | _ => e
  end.

(** The row's first link has this [href]. *)
Definition linked (tag : Element) (href : string) : Prop :=
  exists a, child_tag "a" tag = Ok (Some a) /\ subscript (Some a) "href" = Ok href.


Definition review_url (href : string) : string :=
  RT_url +:+ href +:+ user_review_page.

(** ** Sample index rows *)

Definition movie_row (href title : string) : Element :=
  ETag "tr" None ∅
    [ ETag "td" (Some ["bold"]) ∅ [EString "1."];
      ETag "td" None ∅
        [ ETag "a" (Some ["unstyled"; "articleLink"]) {[ "href" := href ]}
            [EString title] ] ].

Definition header_row : Element :=
  ETag "tr" None ∅ [ETag "th" None ∅ [EString "Rank"]].

(** A row whose link has no [href]. *)
Definition anchor_row : Element :=
  ETag "tr" None ∅ [ETag "td" None ∅ [ETag "a" None {[ "name" := "top" ]} []]].

Definition index_page (rows : list Element) : Element :=
  ETag "[document]" None ∅
    [ETag "html" None ∅ [ETag "body" None ∅ [ETag "table" (Some ["table"]) ∅ rows]]].

(** The index request is answered with [body] under any headers. *)
Definition index_served (body : Element) (address : string) (headers : Headers)
    : result (Response Element) :=
  Ok (served address body).

(** * Properties *)

(** ** Score calculator *)

Lemma find_all_direct class_ n :
  find_all None class_ false n = List.filter (has_class class_) (contents n).
Proof.
  unfold find_all. apply List.filter_ext. intros [nm c cs | s]; reflexivity.
Qed.

(** On a tag whose first class token is [star-display], the score is the
    number of direct children marked filled plus half the number of direct
    children marked half. *)
Lemma calculate_score_widget name more slots :
  calculate_score (Tag name (Some ("star-display" :: more)) slots)
  = Ok (half_units
          (length (List.filter (has_class "star-display__filled") slots))
          (length (List.filter (has_class "star-display__half") slots))).
Proof.
  unfold calculate_score. rewrite String.eqb_refl. cbn [negb].
  rewrite !find_all_direct. reflexivity.
Qed.

Example calculate_score_nested :
  calculate_score nested_star = Ok (half_units 1 1).
Proof. reflexivity. Qed.

Lemma calculate_score_not_a_tag s :
  calculate_score (NavigableString s)
  = Raise (TypeError "Input must be of type bs4.element.Tag").
Proof. reflexivity. Qed.

Lemma calculate_score_wrong_class name c0 more slots :
  c0 <> "star-display" ->
  calculate_score (Tag name (Some (c0 :: more)) slots)
  = Raise (TypeError "Tag must be of class 'star-display'").
Proof.
  intros Hne. unfold calculate_score.
  destruct (String.eqb_spec c0 "star-display") as [->|_]; [congruence | reflexivity].
Qed.

(** [find_all(class_="star-display")] selects a tag on any of its class
    tokens, [calculate_score] accepts it on the first one only. *)
Example calculate_score_second_token :
  find_all None "star-display" true (page [large_star_display]) = [large_star_display] /\
  calculate_score large_star_display
  = Raise (TypeError "Tag must be of class 'star-display'").
Proof. split; reflexivity. Qed.

(** Whatever [calculate_score] returns was computed from a tag whose first
    class token is [star-display]. *)
Lemma calculate_score_Ok_inv n q :
  calculate_score n = Ok q ->
  exists name more slots,
    n = Tag name (Some ("star-display" :: more)) slots /\
    q = half_units
          (length (List.filter (has_class "star-display__filled") slots))
          (length (List.filter (has_class "star-display__half") slots)).
Proof.
  destruct n as [name [[|c0 more]|] slots | s]; try discriminate.
  destruct (String.eqb_spec c0 "star-display") as [->|Hne].
  - rewrite calculate_score_widget. intros [= <-]. eauto.
  - rewrite calculate_score_wrong_class by assumption. discriminate.
Qed.

(** C4: a tag without a [class] attribute is not a rating widget, yet
    [calculate_score] does not raise the [TypeError] its docstring
    announces for it: the subscript [star_display["class"]] raises
    [KeyError] first. *)
Theorem calculate_score_classless_tag :
  calculate_score plain_div = Raise (KeyError "class") /\
  (forall msg, calculate_score plain_div <> Raise (TypeError msg)).
Proof. split; [reflexivity | intros msg; discriminate]. Qed.

(** C8, as stated, fails: a rating widget with six filled slots scores
    6, above the cap of 5. *)
Lemma six_stars_exceeds_cap :
  exists q, calculate_score six_stars = Ok q /\ ~ (q <= 5)%Q.
Proof.
  exists (half_units 6 0). split; [reflexivity |].
  intros H. vm_compute in H. apply H. reflexivity.
Qed.

(** C8, amended: every score is a whole number of half stars (so it is
    never negative), and it is bounded only by the widget's size: each
    direct child adds at most 1.5. *)
Theorem calculate_score_range n q :
  calculate_score n = Ok q ->
  (exists k : nat, q == inject_Z (Z.of_nat k) * (1 # 2))%Q /\
  (0 <= q)%Q /\
  (q <= (3 # 2) * inject_Z (Z.of_nat (length (contents n))))%Q.
Proof.
  intros H. apply calculate_score_Ok_inv in H as (name & more & slots & -> & ->).
  cbn [contents].
  pose proof (List.filter_length_le (has_class "star-display__filled") slots) as Hf.
  pose proof (List.filter_length_le (has_class "star-display__half") slots) as Hh.
  set (f := length (List.filter _ slots)) in *.
  set (h := length (List.filter (has_class "star-display__half") slots)) in *.
  unfold half_units. repeat split.
  - exists (2 * f + h). unfold Qeq. cbn. lia.
  - unfold Qle. cbn. lia.
  - unfold Qle. cbn. lia.
Qed.

Lemma calculate_score_range_witness :
  (exists k : nat, half_units 3 1 == inject_Z (Z.of_nat k) * (1 # 2))%Q /\
  (0 <= half_units 3 1)%Q /\
  (half_units 3 1 <= (3 # 2) * inject_Z 4)%Q.
Proof.
  apply (calculate_score_range (star_display [filled; filled; filled; half])).
  reflexivity.
Defined.

(** ** Title extraction *)

Lemma substring_prefix_split (k : nat) (s : string) :
  k <= String.length s ->
  s = String.substring 0 k s +:+ String.substring k (String.length s - k) s /\
  String.length (String.substring k (String.length s - k) s) = String.length s - k.
Proof.
  revert k. induction s as [|a s IH]; intros [|k] Hk; cbn in *.
  - split; reflexivity.
  - lia.
  - clear IH Hk. assert (H : forall t, String.substring 0 (String.length t) t = t).
    { induction t as [|b t IHt]; cbn; [reflexivity | now rewrite IHt]. }
    rewrite H. split; reflexivity.
  - destruct (IH k) as [H1 H2]; [lia |]. split; [| exact H2].
    change (String a s = String a (String.substring 0 k s +:+
              String.substring k (String.length s - k) s)).
    now rewrite <- H1.
Qed.

(** [s[:-8]] drops the last eight characters, or all of them when there
    are fewer. *)
Lemma slice_stop_drops_suffix (s : string) :
  exists suffix,
    s = slice_stop s (-8) +:+ suffix /\
    String.length suffix = Nat.min 8 (String.length s).
Proof.
  unfold slice_stop. cbn [Z.ltb Z.compare].
  set (k := Z.to_nat (Z.max 0 (Z.of_nat (String.length s) + -8))).
  assert (Hk : k = String.length s - 8) by (unfold k; lia).
  destruct (substring_prefix_split k s) as [H1 H2]; [lia |].
  exists (String.substring k (String.length s - k) s). split; [exact H1 | lia].
Qed.

Lemma slice_stop_short (s : string) :
  String.length s <= 8 -> slice_stop s (-8) = "".
Proof.
  intros H. unfold slice_stop. cbn [Z.ltb Z.compare].
  replace (Z.to_nat _) with 0 by lia. now destruct s.
Qed.

Section Title.
Variable no_movie_title : exn.

Lemma extract_movie_title_found soup h2 :
  find (Some "h2") "panel-heading" soup = Some h2 ->
  extract_movie_title no_movie_title soup
  = if String.eqb (text h2) "" then Raise no_movie_title
    else Ok (slice_stop (text h2) (-8)).
Proof. intros H. unfold extract_movie_title. now rewrite H. Qed.

(** When there is no title node, the failure is the attribute error of
    [None.text], in both files. *)
Lemma extract_movie_title_absent soup :
  find (Some "h2") "panel-heading" soup = None ->
  extract_movie_title no_movie_title soup = Raise (NoneType_has_no "text").
Proof. intros H. unfold extract_movie_title. now rewrite H. Qed.

(** C6, amended: on a document that has a title node, title extraction
    raises the not-found error exactly when the node's raw text is empty;
    otherwise it returns that text without its last eight characters
    (without all of them when there are at most eight). *)
Theorem extract_movie_title_spec soup h2 :
  find (Some "h2") "panel-heading" soup = Some h2 ->
  (text h2 = "" <-> extract_movie_title no_movie_title soup = Raise no_movie_title) /\
  (text h2 <> "" ->
   exists title suffix,
     extract_movie_title no_movie_title soup = Ok title /\
     text h2 = title +:+ suffix /\
     String.length suffix = Nat.min 8 (String.length (text h2))).
Proof.
  intros H. rewrite (extract_movie_title_found _ _ H).
  destruct (String.eqb_spec (text h2) "") as [E|NE].
  - split; [tauto | congruence].
  - split; [split; [congruence | discriminate] |].
    intros _. destruct (slice_stop_drops_suffix (text h2)) as (suffix & H1 & H2).
    eauto.
Qed.

(** C10: a title node whose text is not empty but has at most eight
    characters makes title extraction succeed with the empty string. *)
Theorem extract_movie_title_short soup h2 :
  find (Some "h2") "panel-heading" soup = Some h2 ->
  text h2 <> "" ->
  String.length (text h2) <= 8 ->
  extract_movie_title no_movie_title soup = Ok "".
Proof.
  intros H NE Hlen. rewrite (extract_movie_title_found _ _ H).
  destruct (String.eqb_spec (text h2) "") as [E|_]; [congruence |].
  now rewrite slice_stop_short.
Qed.
End Title.

Example extract_movie_title_untitled :
  extract_movie_title RottenTomatoesScraper.no_movie_title untitled_page
  = Raise (AttributeError "'NoneType' object has no attribute 'text'").
Proof. reflexivity. Qed.

Lemma extract_movie_title_spec_witness :
  (text (panel_heading "Parasite Reviews") = ""
   <-> extract_movie_title (NotFoundError "movie title")
         (page [panel_heading "Parasite Reviews"])
       = Raise (NotFoundError "movie title")) /\
  (text (panel_heading "Parasite Reviews") <> "" ->
   exists title suffix,
     extract_movie_title (NotFoundError "movie title")
       (page [panel_heading "Parasite Reviews"]) = Ok title /\
     text (panel_heading "Parasite Reviews") = title +:+ suffix /\
     String.length suffix = Nat.min 8 (String.length (text (panel_heading "Parasite Reviews")))).
Proof.
  apply (extract_movie_title_spec (NotFoundError "movie title")
           (page [panel_heading "Parasite Reviews"])
           (panel_heading "Parasite Reviews")).
  reflexivity.
Defined.

Lemma extract_movie_title_short_witness :
  extract_movie_title RottenTomatoesScraper.no_movie_title suffix_only_page = Ok "" /\
  extract_movie_title scraper.no_movie_title suffix_only_page = Ok "".
Proof.
  split.
  - apply (extract_movie_title_short RottenTomatoesScraper.no_movie_title
             suffix_only_page (panel_heading " Reviews")).
    + reflexivity.
    + discriminate.
    + vm_compute. lia.
  - apply (extract_movie_title_short scraper.no_movie_title
             suffix_only_page (panel_heading " Reviews")).
    + reflexivity.
    + discriminate.
    + vm_compute. lia.
Defined.

(** C6, as stated, fails in both files: the heading of [suffix_only_page]
    is empty once the suffix is stripped, yet no not-found error is
    raised, the title returned is the empty string. *)
Lemma stripped_title_empty_not_reported :
  find (Some "h2") "panel-heading" suffix_only_page = Some (panel_heading " Reviews") /\
  slice_stop (text (panel_heading " Reviews")) (-8) = "" /\
  extract_movie_title RottenTomatoesScraper.no_movie_title suffix_only_page
    <> Raise (NotFoundError "movie title") /\
  extract_movie_title scraper.no_movie_title suffix_only_page
    <> Raise scraper.no_movie_title.
Proof. repeat split; discriminate. Qed.

(** ** The scraper's constructor *)

Lemma comprehension_length {A B} (f : A -> result B) l ys :
  comprehension f l = Ok ys -> length ys = length l.
Proof.
  revert ys. induction l as [|x l IH]; cbn; intros ys H.
  - now inversion H.
  - destruct (f x) as [y|e]; cbn in H; [| discriminate].
    destruct (comprehension f l) as [ys'|e]; cbn in H; [| discriminate].
    inversion H; subst. cbn. f_equal. now apply IH.
Qed.

Lemma comprehension_Raise {A B} (f : A -> result B) l e :
  comprehension f l = Raise e -> exists x, In x l /\ f x = Raise e.
Proof.
  induction l as [|x l IH]; cbn; intros H; [discriminate |].
  destruct (f x) as [y|e'] eqn:E; cbn in H.
  - destruct (comprehension f l) as [ys'|e'']; cbn in H; [discriminate |].
    inversion H; subst. destruct IH as (x' & ? & ?); eauto.
  - inversion H; subst. eauto.
Qed.

Lemma comprehension_total {A B} (f : A -> result B) l :
  Forall (fun x => exists y, f x = Ok y) l -> exists ys, comprehension f l = Ok ys.
Proof.
  induction 1 as [|x l [y Hy] _ [ys IH]]; cbn; [eauto |].
  rewrite Hy, IH. cbn. eauto.
Qed.

(** What [find_all(class_="star-display")] selects has a class token, so
    the only exception [calculate_score] can raise on it is the one for a
    first token other than [star-display]. *)
Lemma calculate_score_on_selected n e :
  has_class "star-display" n = true ->
  calculate_score n = Raise e ->
  e = TypeError "Tag must be of class 'star-display'".
Proof.
  destruct n as [name [[|c0 more]|] slots | s]; cbn [has_class existsb]; try discriminate.
  intros _. destruct (String.eqb_spec c0 "star-display") as [->|Hne].
  - rewrite calculate_score_widget. discriminate.
  - rewrite calculate_score_wrong_class by assumption. congruence.
Qed.

Lemma find_all_has_class name class_ recursive t n :
  In n (find_all name class_ recursive t) -> has_class class_ n = true.
Proof.
  unfold find_all. rewrite List.filter_In. intros [_ H].
  apply andb_prop in H. tauto.
Qed.

Section Constructor.
Context {bytes : Type} (BeautifulSoup : bytes -> Soup).

Lemma scraper_init_Ok_inv content self :
  scraper.__init__ BeautifulSoup content = Ok self ->
  comprehension calculate_score (rating_widgets (BeautifulSoup content))
    = Ok (scraper.review_scores self) /\
  scraper.review_text self = map text (review_nodes (BeautifulSoup content)) /\
  extract_movie_title scraper.no_movie_title (BeautifulSoup content)
    = Ok (scraper.title self) /\
  scraper.titles self
    = map (fun _ => scraper.title self) (scraper.review_scores self).
Proof.
  unfold scraper.__init__, extract_review_scores, extract_review_text,
    rating_widgets, review_nodes.
  destruct (find_all None _ true _) as [|w ws]; [discriminate |].
  destruct (comprehension calculate_score (w :: ws)) as [scores|e]; [| discriminate].
  cbn [rbind].
  destruct (find_all (Some "p") _ true _) as [|r rs]; [discriminate |].
  cbn [rbind].
  destruct (extract_movie_title _ _) as [t|e]; [| discriminate].
  cbn [rbind]. intros [= <-]. cbn. auto.
Qed.

(** The exceptions that can leave the constructor. *)
Lemma scraper_init_Raise_inv content e :
  scraper.__init__ BeautifulSoup content = Raise e ->
  In e [ scraper.no_star_display;
         TypeError "Tag must be of class 'star-display'";
         scraper.no_review_text;
         NoneType_has_no "text";
         scraper.no_movie_title ].
Proof.
  unfold scraper.__init__, extract_review_scores, extract_review_text,
    extract_movie_title.
  destruct (find_all None _ true _) as [|w ws] eqn:Ew.
  { cbn. intros [= <-]. auto. }
  destruct (comprehension calculate_score (w :: ws)) as [scores|e'] eqn:Ec.
  2:{ cbn [rbind]. intros [= <-].
      apply comprehension_Raise in Ec as (n & Hn & Hr). rewrite <- Ew in Hn.
      apply find_all_has_class in Hn.
      rewrite (calculate_score_on_selected _ _ Hn Hr). cbn. auto. }
  cbn [rbind].
  destruct (find_all (Some "p") _ true _) as [|r rs].
  { cbn. intros [= <-]. auto. }
  cbn [rbind].
  destruct (find _ _ _) as [h2|].
  2:{ cbn [rbind]. intros [= <-]. cbn. auto. }
  destruct (String.eqb _ _); cbn [rbind]; [| discriminate].
  intros [= <-]. cbn. auto 6.
Qed.

(** The constructor succeeds as soon as each of the three extractions
    finds its nodes and every selected widget has [star-display] as its
    first class token; it compares no lengths. *)
Lemma scraper_init_succeeds content h2 :
  rating_widgets (BeautifulSoup content) <> [] ->
  Forall (fun n => exists name more slots,
              n = Tag name (Some ("star-display" :: more)) slots)
    (rating_widgets (BeautifulSoup content)) ->
  review_nodes (BeautifulSoup content) <> [] ->
  find (Some "h2") "panel-heading" (BeautifulSoup content) = Some h2 ->
  text h2 <> "" ->
  exists self, scraper.__init__ BeautifulSoup content = Ok self.
Proof.
  intros Hw Hall Hr Hh Ht.
  unfold scraper.__init__, extract_review_scores, extract_review_text.
  fold (rating_widgets (BeautifulSoup content)).
  fold (review_nodes (BeautifulSoup content)).
  destruct (comprehension_total calculate_score
              (rating_widgets (BeautifulSoup content))) as [scores Hs].
  { eapply Forall_impl; [exact Hall |].
    intros n (name & more & slots & ->). rewrite calculate_score_widget. eauto. }
  destruct (rating_widgets _) as [|w ws]; [congruence |].
  rewrite Hs. cbn [rbind].
  destruct (review_nodes _) as [|r rs]; [congruence |].
  cbn [rbind]. rewrite (extract_movie_title_found _ _ _ Hh).
  destruct (String.eqb_spec (text h2) ""); [congruence |].
  cbn [rbind]. eauto.
Qed.

(** C2, amended: when the number of rating widgets differs from the
    number of review paragraphs, the constructor raises no alignment
    error (it can only raise one of five other exceptions), and when it
    succeeds it keeps one score per widget and one text per paragraph:
    two columns of different lengths, neither truncated nor padded. *)
Theorem scraper_init_unaligned content :
  length (rating_widgets (BeautifulSoup content))
    <> length (review_nodes (BeautifulSoup content)) ->
  scraper.__init__ BeautifulSoup content <> Raise (NotFoundError "aligned reviews") /\
  (forall e, scraper.__init__ BeautifulSoup content = Raise e ->
     In e [ scraper.no_star_display;
            TypeError "Tag must be of class 'star-display'";
            scraper.no_review_text;
            NoneType_has_no "text";
            scraper.no_movie_title ]) /\
  (forall self, scraper.__init__ BeautifulSoup content = Ok self ->
     length (scraper.review_scores self)
       = length (rating_widgets (BeautifulSoup content)) /\
     length (scraper.review_text self)
       = length (review_nodes (BeautifulSoup content)) /\
     length (scraper.review_scores self) <> length (scraper.review_text self)).
Proof.
  intros Hne. split; [| split].
  - intros H. apply scraper_init_Raise_inv in H. cbn in H.
    repeat destruct H as [H|H]; try discriminate H; contradiction.
  - apply scraper_init_Raise_inv.
  - intros self H. apply scraper_init_Ok_inv in H as (Hs & Ht & _ & _).
    apply comprehension_length in Hs. rewrite Ht, length_map. lia.
Qed.
End Constructor.

(** C2, as stated, fails: on [unaligned_page] the constructor succeeds,
    with three scores next to two texts. *)
Lemma unaligned_page_accepted :
  length (rating_widgets unaligned_page) = 3 /\
  length (review_nodes unaligned_page) = 2 /\
  scraper.__init__ (fun soup : Soup => soup) unaligned_page
  = Ok {| scraper.review_scores := [half_units 4 1; half_units 2 0; half_units 0 1];
          scraper.review_text := ["Superb."; "Too long."];
          scraper.title := "Parasite";
          scraper.titles := ["Parasite"; "Parasite"; "Parasite"] |}.
Proof. repeat split. Qed.

Lemma scraper_init_unaligned_witness :
  scraper.__init__ (fun soup : Soup => soup) unaligned_page
    <> Raise (NotFoundError "aligned reviews") /\
  (forall e, scraper.__init__ (fun soup : Soup => soup) unaligned_page = Raise e ->
     In e [ scraper.no_star_display;
            TypeError "Tag must be of class 'star-display'";
            scraper.no_review_text;
            NoneType_has_no "text";
            scraper.no_movie_title ]) /\
  (forall self, scraper.__init__ (fun soup : Soup => soup) unaligned_page = Ok self ->
     length (scraper.review_scores self) = length (rating_widgets unaligned_page) /\
     length (scraper.review_text self) = length (review_nodes unaligned_page) /\
     length (scraper.review_scores self) <> length (scraper.review_text self)).
Proof.
  apply (scraper_init_unaligned (fun soup : Soup => soup) unaligned_page).
  vm_compute. lia.
Defined.

(** ** The dictionary of reviews *)

Lemma map_const_repeat {A B} (b : B) (l : list A) :
  map (fun _ => b) l = repeat b (length l).
Proof. induction l as [|a l IH]; cbn; [reflexivity | now rewrite IH]. Qed.

(** C9: once the constructor of scraper.py has succeeded, the Title column
    of [to_dict] is the title repeated once per score, so it is as long as
    the Score column; in RottenTomatoesScraper.py [to_dict] builds the
    Title column from the scores itself, for every object.  The review
    texts play no part in either. *)
Theorem to_dict_title_per_score {bytes : Type} (BeautifulSoup : bytes -> Soup)
    (content : bytes) (self : scraper.RottenTomatoesScraper)
    (self' : RottenTomatoesScraper.RottenTomatoesScraper) :
  scraper.__init__ BeautifulSoup content = Ok self ->
  (exists titles,
     dict_get (scraper.to_dict self) "Title" = Some (Strings titles) /\
     dict_get (scraper.to_dict self) "Score"
       = Some (Numbers (scraper.review_scores self)) /\
     titles = repeat (scraper.title self) (length (scraper.review_scores self)) /\
     length titles = length (scraper.review_scores self)) /\
  (exists titles,
     dict_get (RottenTomatoesScraper.to_dict self') "Title" = Some (Strings titles) /\
     dict_get (RottenTomatoesScraper.to_dict self') "Scores"
       = Some (Numbers (RottenTomatoesScraper.review_scores self')) /\
     titles = repeat (RottenTomatoesScraper.title self')
                (length (RottenTomatoesScraper.review_scores self')) /\
     length titles = length (RottenTomatoesScraper.review_scores self')).
Proof.
  intros H. apply scraper_init_Ok_inv in H as (_ & _ & _ & Ht). split.
  - exists (scraper.titles self). cbn. rewrite Ht, map_const_repeat, repeat_length.
    auto.
  - eexists. cbn. rewrite map_const_repeat, repeat_length. auto.
Qed.

Lemma to_dict_title_per_score_witness :
  exists self self',
    scraper.__init__ (fun soup : Soup => soup) unaligned_page = Ok self /\
    RottenTomatoesScraper.__init__ (fun soup : Soup => soup) requests_get_unaligned
      "https://www.rottentomatoes.com/m/parasite_2019/reviews?type=user" = Ok self' /\
    length (scraper.review_text self) <> length (scraper.review_scores self) /\
    dict_get (scraper.to_dict self) "Title"
      = Some (Strings ["Parasite"; "Parasite"; "Parasite"]) /\
    dict_get (RottenTomatoesScraper.to_dict self') "Title"
      = Some (Strings ["Parasite"; "Parasite"; "Parasite"]).
Proof.
  eexists. eexists.
  split; [reflexivity |]. split; [reflexivity |].
  split; [cbn; lia |].
  edestruct (to_dict_title_per_score (fun soup : Soup => soup) unaligned_page)
    as [(t & Ht & _ & -> & _) (t' & Ht' & _ & -> & _)]; [reflexivity |].
  split; [exact Ht | exact Ht'].
Defined.

(** ** Dataset assembly *)

Section Assembler.
Context {bytes : Type} (BeautifulSoup : bytes -> Soup).

Lemma parse_reviews_scraped responses data rest titles review_text review_scores :
  Forall2 (scraped BeautifulSoup) responses data ->
  parse_reviews BeautifulSoup (map Some responses ++ rest)
    titles review_text review_scores
  = parse_reviews BeautifulSoup rest
      (titles ++ concat (map scraper.titles data))
      (review_text ++ concat (map scraper.review_text data))
      (review_scores ++ concat (map scraper.review_scores data)).
Proof.
  intros H. revert titles review_text review_scores.
  induction H as [|r d rs ds Hr _ IH]; intros titles review_text review_scores; cbn.
  - now rewrite !app_nil_r.
  - unfold scraped in Hr. rewrite Hr. cbn [rbind]. rewrite IH, <- !app_assoc.
    reflexivity.
Qed.

(** When every page is scraped successfully, the three columns are the
    pages' columns one after the other, in the order of the responses. *)
Lemma generate_df_all_scraped responses data :
  Forall2 (scraped BeautifulSoup) responses data ->
  generate_df BeautifulSoup (map Some responses)
  = DataFrame_from_dict
      [ ("Title", Strings (concat (map scraper.titles data)));
        ("Review Text", Strings (concat (map scraper.review_text data)));
        ("Review Score", Numbers (concat (map scraper.review_scores data))) ].
Proof.
  intros H. unfold generate_df.
  rewrite <- (app_nil_r (map Some responses)).
  rewrite (parse_reviews_scraped _ _ [] [] [] [] H). reflexivity.
Qed.

(** C3, amended: when the constructor fails on a page, [generate_df]
    does not go on to the remaining pages: it raises the exception of the
    first page that fails, so no data frame is produced, whatever the
    pages before and after it contain. *)
Theorem generate_df_first_failure before data bad e after :
  Forall2 (scraped BeautifulSoup) before data ->
  scraper.__init__ BeautifulSoup (content bad) = Raise e ->
  generate_df BeautifulSoup (map Some (before ++ bad :: after)) = Raise e.
Proof.
  intros Hb He. unfold generate_df.
  rewrite map_app, (parse_reviews_scraped _ _ _ [] [] [] Hb).
  cbn. rewrite He. reflexivity.
Qed.
End Assembler.

Example generate_df_two_pages :
  generate_df (fun soup : Soup => soup)
    [Some (served "/m/parasite_2019" parasite_page);
     Some (served "/m/joker_2019" joker_page)]
  = Ok {| df_columns :=
            [ ("Title", Strings ["Parasite"; "Parasite"; "Joker"]);
              ("Review Text", Strings ["Superb."; "Gripping."; "Bleak."]);
              ("Review Score",
               Numbers [half_units 4 0; half_units 3 1; half_units 2 0]) ] |}.
Proof. reflexivity. Qed.

(** C3, as stated, fails: of five pages the third has no rating widget;
    the constructor fails on it alone, and [generate_df] yields no data
    frame at all instead of the rows of the other four. *)
Lemma one_bad_page_aborts :
  scraper.__init__ (fun soup : Soup => soup) unrated_page
    = Raise scraper.no_star_display /\
  (exists self, scraper.__init__ (fun soup : Soup => soup) parasite_page = Ok self) /\
  (exists self, scraper.__init__ (fun soup : Soup => soup) joker_page = Ok self) /\
  generate_df (fun soup : Soup => soup) five_responses
    = Raise scraper.no_star_display /\
  (forall df, generate_df (fun soup : Soup => soup) five_responses <> Ok df).
Proof.
  split; [reflexivity |]. split; [eexists; reflexivity |].
  split; [eexists; reflexivity |]. split; [reflexivity |].
  intros df. discriminate.
Qed.

Lemma generate_df_first_failure_witness :
  generate_df (fun soup : Soup => soup) five_responses = Raise scraper.no_star_display.
Proof.
  refine (generate_df_first_failure (fun soup : Soup => soup)
            [served "/m/parasite_2019" parasite_page; served "/m/joker_2019" joker_page]
            _ (served "/m/cats_2019" unrated_page) scraper.no_star_display
            [served "/m/joker_2019" joker_page; served "/m/parasite_2019" parasite_page]
            _ _).
  - constructor; [reflexivity |]. constructor; [reflexivity |]. constructor.
  - reflexivity.
Defined.

(** ** Batch fetching *)

Section Fetcher.
Context {bytes : Type}.
Variable send : nat -> Headers -> string -> option (Response bytes).
Variable completion : nat -> list nat.

Lemma job_done_lookup k (requests : list (AsyncRequest (bytes := bytes))) j i :
  job_done send k requests j !! i
  = (fun r => if decide (i = j) then run_job send k r else r) <$> requests !! i.
Proof.
  unfold job_done. destruct (requests !! j) as [r|] eqn:Ej.
  - destruct (decide (i = j)) as [->|Hne].
    + rewrite list_lookup_insert_eq by (eapply lookup_lt_Some; eauto).
      now rewrite Ej.
    + rewrite list_lookup_insert_ne by congruence.
      now destruct (requests !! i).
  - destruct (decide (i = j)) as [->|Hne].
    + now rewrite Ej.
    + now destruct (requests !! i).
Qed.

Lemma foldl_job_done_lookup k order (requests : list (AsyncRequest (bytes := bytes))) i :
  foldl (job_done send k) requests order !! i
  = (fun r => if decide (i ∈ order) then run_job send k r else r) <$> requests !! i.
Proof.
  revert requests. induction order as [|j order IH]; intros requests; cbn [foldl].
  - destruct (requests !! i); cbn; [| reflexivity].
    destruct (decide (i ∈ [])) as [H|_]; [| reflexivity]. now apply elem_of_nil in H.
  - rewrite IH, job_done_lookup. destruct (requests !! i) as [r|]; cbn; [| reflexivity].
    f_equal. destruct (decide (i = j)) as [->|Hne].
    + destruct (decide (j ∈ j :: order)) as [_|H]; [| exfalso; apply H; left].
      now destruct (decide (j ∈ order)).
    + destruct (decide (i ∈ order)) as [Hin|Hnin];
        destruct (decide (i ∈ j :: order)) as [Hin'|Hnin']; try reflexivity.
      * exfalso. apply Hnin'. now right.
      * exfalso. apply elem_of_cons in Hin' as [?|?]; contradiction.
Qed.

(** Whatever the order of completion, [grequests.map] returns, for each
    URL in turn, what the network answered for that URL. *)
Lemma grequests_map_in_request_order k urls headers :
  jobs_finish completion k (length urls) ->
  grequests_map send completion k
    (map (fun url => grequests_get url headers) urls) handler
  = map (send k headers) urls.
Proof.
  intros Hfin. unfold grequests_map. apply list_eq. intros i.
  rewrite !list_lookup_fmap, foldl_job_done_lookup, list_lookup_fmap.
  destruct (urls !! i) as [url|] eqn:Ei; cbn; [| reflexivity].
  destruct (decide (i ∈ completion k)) as [_|Hnin].
  - cbn. now destruct (send k headers url).
  - exfalso. apply Hnin. unfold jobs_finish in Hfin. rewrite Hfin.
    apply elem_of_seq. apply lookup_lt_Some in Ei. lia.
Qed.

Lemma issue_in_request_order urls headers w :
  jobs_finish completion (length w) (length urls) ->
  issue send completion urls headers w
  = (map (send (length w) (default_headers headers)) urls,
     w ++ [ {| batch_headers := default_headers headers; batch_urls := urls |} ]).
Proof.
  intros Hfin. unfold issue. now rewrite grequests_map_in_request_order.
Qed.

Lemma issue_world urls headers w :
  snd (issue send completion urls headers w)
  = w ++ [ {| batch_headers := default_headers headers; batch_urls := urls |} ].
Proof. reflexivity. Qed.

Lemma issue_no_urls headers w :
  fst (issue send completion [] headers w) = [].
Proof.
  unfold issue, grequests_map. cbn [fst map].
  induction (completion (length w)) as [|j order IH]; [reflexivity | exact IH].
Qed.

(** The loop runs to its end only over responses that are all there,
    none of them a 403. *)
Lemma scan_Completed (responses : list (option (Response bytes))) time time' :
  scan responses time = Completed time' ->
  Forall (fun o => exists r, o = Some r /\ status_code r <> 403%Z) responses.
Proof.
  revert time. induction responses as [|[r|] rest IH]; intros time; cbn.
  - constructor.
  - destruct (Z.eqb_spec (status_code r) 403); [discriminate |].
    intros H. constructor; eauto.
  - discriminate.
Qed.

(** It stops at a 403 as soon as the responses before it are all there. *)
Lemma scan_Forbidden (answered : list (Response bytes)) blocked rest time :
  Forall (fun r => status_code r <> 403%Z) answered ->
  status_code blocked = 403%Z ->
  scan (map Some answered ++ Some blocked :: rest) time = Forbidden.
Proof.
  intros Hok Hb. revert time.
  induction Hok as [|r answered Hr _ IH]; intros time; cbn.
  - rewrite Hb. reflexivity.
  - destruct (Z.eqb_spec (status_code r) 403); [contradiction | apply IH].
Qed.

Lemma get_responses_unfold urls headers retry w :
  get_responses send completion urls headers retry w
  = let (responses, w') := issue send completion urls headers w in
    match scan responses 0 with
    | Crashed e => (Raise e, w')
    | Forbidden =>
        if retry
        then (Raise (HTTPError "Received 403 error again: check size, headers, and URL's"), w')
        else get_responses send completion urls (Some firefox_header) true w'
    | Completed _ =>
        match responses with
        | [] => (Raise (AttributeError "No responses were recieved"), w')
        | _ => (Ok responses, w')
        end
    end.
Proof.
  simp get_responses.
  destruct (issue send completion urls headers w) as [responses w'].
  cbn. destruct (scan responses 0); destruct retry; cbn; simp get_responses;
    reflexivity.
Qed.

(** A call with [retry=True] issues exactly one batch. *)
Lemma get_responses_retry_world urls headers w :
  snd (get_responses send completion urls headers true w)
  = w ++ [ {| batch_headers := default_headers headers; batch_urls := urls |} ].
Proof.
  rewrite get_responses_unfold.
  pose proof (issue_world urls headers w) as Hw.
  destruct (issue send completion urls headers w) as [responses w']. cbn in Hw.
  subst w'. destruct (scan responses 0); [destruct responses | |]; reflexivity.
Qed.

(** A call issues one batch, or two when the first one met a 403 and the
    call was not itself the retry; the second batch goes out under
    [firefox_header] for the same URLs.  There is never a third. *)
Lemma get_responses_batches urls headers retry w :
  let first := {| batch_headers := default_headers headers; batch_urls := urls |} in
  let second := {| batch_headers := firefox_header; batch_urls := urls |} in
  snd (get_responses send completion urls headers retry w)
  = if negb retry && met_403 (scan (fst (issue send completion urls headers w)) 0)
    then w ++ [first; second]
    else w ++ [first].
Proof.
  cbn zeta. rewrite get_responses_unfold.
  pose proof (issue_world urls headers w) as Hw.
  destruct (issue send completion urls headers w) as [responses w']. cbn in Hw.
  subst w'. cbn [fst]. destruct (scan responses 0) eqn:Es; cbn [met_403].
  - rewrite andb_false_r. now destruct responses.
  - destruct retry; cbn; [reflexivity |].
    rewrite get_responses_retry_world, <- app_assoc. reflexivity.
  - now rewrite andb_false_r.
Qed.

(** Retry once: a first batch that runs into a 403 is fetched again as a
    whole, and the outcome of the call is that of the second batch. *)
Lemma get_responses_first_403 urls headers w :
  scan (fst (issue send completion urls headers w)) 0 = Forbidden ->
  get_responses send completion urls headers false w
  = get_responses send completion urls (Some firefox_header) true
      (w ++ [ {| batch_headers := default_headers headers; batch_urls := urls |} ]).
Proof.
  intros Hs. rewrite get_responses_unfold.
  pose proof (issue_world urls headers w) as Hw.
  destruct (issue send completion urls headers w) as [responses w']. cbn in *.
  subst w'. now rewrite Hs.
Qed.

(** A 403 met by the retry raises the HTTP error. *)
Lemma get_responses_second_403 urls headers w :
  scan (fst (issue send completion urls headers w)) 0 = Forbidden ->
  fst (get_responses send completion urls headers true w)
  = Raise (HTTPError "Received 403 error again: check size, headers, and URL's").
Proof.
  intros Hs. rewrite get_responses_unfold.
  destruct (issue send completion urls headers w) as [responses w']. cbn in *.
  now rewrite Hs.
Qed.
End Fetcher.

Section FetcherResults.
Context {bytes : Type}.
Variable send : nat -> Headers -> string -> option (Response bytes).
Variable completion : nat -> list nat.

(** What a call returns is the whole outcome of the last batch it
    issued, over which the loop ran to its end. *)
Lemma get_responses_Ok_inv urls headers retry w responses w' :
  get_responses send completion urls headers retry w = (Ok responses, w') ->
  exists earlier used time,
    w' = earlier ++ [ {| batch_headers := used; batch_urls := urls |} ] /\
    responses
      = grequests_map send completion (length earlier)
          (map (fun url => grequests_get url used) urls) handler /\
    scan responses 0 = Completed time /\
    responses <> [].
Proof.
  assert (Hlast : forall headers w,
    match scan (fst (issue send completion urls headers w)) 0 with
    | Completed _ =>
        match fst (issue send completion urls headers w) with
        | [] => (Raise (AttributeError "No responses were recieved"),
                 snd (issue send completion urls headers w))
        | _ => (Ok (fst (issue send completion urls headers w)),
                snd (issue send completion urls headers w))
        end
    | Forbidden =>
        (Raise (HTTPError "Received 403 error again: check size, headers, and URL's"),
         snd (issue send completion urls headers w))
    | Crashed e => (Raise e, snd (issue send completion urls headers w))
    end = (Ok responses, w') ->
    exists earlier used time,
      w' = earlier ++ [ {| batch_headers := used; batch_urls := urls |} ] /\
      responses
        = grequests_map send completion (length earlier)
            (map (fun url => grequests_get url used) urls) handler /\
      scan responses 0 = Completed time /\
      responses <> []).
  { clear. intros headers w.
    destruct (scan _ 0) as [time| |e] eqn:Es; try discriminate.
    destruct (fst (issue send completion urls headers w)) as [|r rs] eqn:Er;
      [discriminate |].
    intros [= <- <-]. exists w, (default_headers headers), time.
    split; [reflexivity |]. split; [| split].
    - rewrite <- Er. reflexivity.
    - exact Es.
    - discriminate. }
  rewrite get_responses_unfold.
  destruct (issue send completion urls headers w) as [rs w1] eqn:Ei.
  destruct (scan rs 0) as [time| |e] eqn:Es.
  - intros H. apply (Hlast headers w). rewrite Ei. cbn [fst snd]. now rewrite Es.
  - destruct retry; [discriminate |]. rewrite get_responses_unfold.
    intros H. apply (Hlast (Some firefox_header) w1).
    destruct (issue send completion urls (Some firefox_header) w1) as [rs2 w2].
    cbn [fst snd]. destruct (scan rs2 0); exact H.
  - discriminate.
Qed.

(** C5: whatever the order in which the requests of a batch complete,
    the sequence [get_responses] returns is aligned with the URL list:
    its [i]-th element is the response the network gave, in the batch
    that was kept, for the [i]-th URL. *)
Theorem get_responses_index_aligned urls headers retry w responses w' :
  (forall k, jobs_finish completion k (length urls)) ->
  get_responses send completion urls headers retry w = (Ok responses, w') ->
  exists earlier kept,
    w' = earlier ++ [kept] /\
    batch_urls kept = urls /\
    responses = map (send (length earlier) (batch_headers kept)) urls /\
    length responses = length urls /\
    (forall i url, urls !! i = Some url ->
       exists r, responses !! i = Some (Some r) /\
                 send (length earlier) (batch_headers kept) url = Some r).
Proof.
  intros Hfin H.
  apply get_responses_Ok_inv in H as (earlier & used & time & -> & Hr & Hs & _).
  rewrite grequests_map_in_request_order in Hr by apply Hfin.
  exists earlier, {| batch_headers := used; batch_urls := urls |}. cbn.
  split; [reflexivity |]. split; [reflexivity |]. split; [exact Hr |].
  split; [subst responses; apply length_map |].
  intros i url Hi. apply scan_Completed in Hs.
  assert (Hl : responses !! i = Some (send (length earlier) used url)).
  { subst responses. rewrite list_lookup_fmap, Hi. reflexivity. }
  rewrite Forall_lookup in Hs. destruct (Hs _ _ Hl) as (r & Er & _).
  exists r. rewrite Hl, Er. auto.
Qed.

(** The order of completion has no part in the outcome of a call. *)
Lemma get_responses_any_completion completion' urls headers retry w :
  (forall k, jobs_finish completion k (length urls)) ->
  (forall k, jobs_finish completion' k (length urls)) ->
  get_responses send completion urls headers retry w
  = get_responses send completion' urls headers retry w.
Proof.
  intros H H'.
  assert (Hretry : forall headers w,
    get_responses send completion urls headers true w
    = get_responses send completion' urls headers true w).
  { intros headers0 w0. rewrite !get_responses_unfold.
    now rewrite !issue_in_request_order by auto. }
  rewrite !get_responses_unfold, !issue_in_request_order by auto.
  destruct (scan _ 0); [reflexivity | | reflexivity].
  destruct retry; [reflexivity | apply Hretry].
Qed.

(** For an empty URL list [get_responses] raises the no-responses error,
    and no call ever returns an empty sequence. *)
Theorem get_responses_never_empty :
  (forall headers retry w,
     fst (get_responses send completion [] headers retry w)
     = Raise (AttributeError "No responses were recieved")) /\
  (forall urls headers retry w w',
     get_responses send completion urls headers retry w <> (Ok [], w')).
Proof.
  split.
  - intros headers retry w. rewrite get_responses_unfold.
    pose proof (issue_no_urls send completion headers w) as Hn.
    destruct (issue send completion [] headers w) as [rs w1]. cbn in Hn.
    subst rs. reflexivity.
  - intros urls headers retry w w' H.
    apply get_responses_Ok_inv in H as (_ & _ & _ & _ & _ & _ & Hne).
    now apply Hne.
Qed.
End FetcherResults.

Section RetryOnce.
Context {bytes : Type}.
Variable send : nat -> Headers -> string -> option (Response bytes).
Variable completion : nat -> list nat.

Lemma reaches_403_scan (responses : list (option (Response bytes))) :
  reaches_403 responses -> scan responses 0 = Forbidden.
Proof. intros (a & b & r & -> & Ha & Hb). now apply scan_Forbidden. Qed.

(** As long as the requests listed before the first 403 were answered:
    a first batch with a 403 is fetched again, once, as a whole and under
    [firefox_header]; a 403 in that second batch raises the HTTP error;
    and two batches are all that is ever issued. *)
Lemma get_responses_retries_once urls headers w :
  let first := {| batch_headers := default_headers headers; batch_urls := urls |} in
  let second := {| batch_headers := firefox_header; batch_urls := urls |} in
  reaches_403 (fst (issue send completion urls headers w)) ->
  snd (get_responses send completion urls headers false w) = w ++ [first; second] /\
  get_responses send completion urls headers false w
    = get_responses send completion urls (Some firefox_header) true (w ++ [first]) /\
  (reaches_403 (fst (issue send completion urls (Some firefox_header) (w ++ [first]))) ->
   fst (get_responses send completion urls headers false w)
   = Raise (HTTPError "Received 403 error again: check size, headers, and URL's")).
Proof.
  cbn zeta. intros H1. apply reaches_403_scan in H1.
  split; [| split].
  - rewrite get_responses_batches, H1. reflexivity.
  - now apply get_responses_first_403.
  - intros H2. apply reaches_403_scan in H2.
    rewrite get_responses_first_403 by assumption.
    now apply get_responses_second_403.
Qed.
End RetryOnce.

Example get_responses_retry_succeeds :
  get_responses wary_network b_last [url_a; url_b; url_c] None false []
  = (Ok [ Some (served url_a parasite_page);
          Some (served url_b parasite_page);
          Some (served url_c parasite_page) ],
     [ {| batch_headers := safari_header; batch_urls := [url_a; url_b; url_c] |};
       {| batch_headers := firefox_header; batch_urls := [url_a; url_b; url_c] |} ]).
Proof. reflexivity. Qed.

Example get_responses_blocked_twice :
  get_responses hostile_network b_last [url_a; url_b; url_c] None false []
  = (Raise (HTTPError "Received 403 error again: check size, headers, and URL's"),
     [ {| batch_headers := safari_header; batch_urls := [url_a; url_b; url_c] |};
       {| batch_headers := firefox_header; batch_urls := [url_a; url_b; url_c] |} ]).
Proof. reflexivity. Qed.

(** C1: a request that fails ahead of a blocked one makes the loop raise
    on the missing response before it reaches the 403, so the batch is not
    fetched again: one batch is issued and the call ends in an attribute
    error. *)
Theorem get_responses_failed_request_hides_403 :
  fst (issue flaky_network (in_turn 2) [url_a; url_b] None [])
    = [None; Some (blocked url_b)] /\
  status_code (blocked url_b) = 403%Z /\
  get_responses flaky_network (in_turn 2) [url_a; url_b] None false []
  = (Raise (NoneType_has_no "elapsed"),
     [ {| batch_headers := safari_header; batch_urls := [url_a; url_b] |} ]).
Proof. repeat split. Qed.

Lemma get_responses_index_aligned_witness :
  exists earlier kept,
    [ {| batch_headers := safari_header; batch_urls := [url_a; url_b; url_c] |};
      {| batch_headers := firefox_header; batch_urls := [url_a; url_b; url_c] |} ]
      = earlier ++ [kept] /\
    batch_urls kept = [url_a; url_b; url_c] /\
    [ Some (served url_a parasite_page);
      Some (served url_b parasite_page);
      Some (served url_c parasite_page) ]
      = map (wary_network (length earlier) (batch_headers kept)) [url_a; url_b; url_c] /\
    length [ Some (served url_a parasite_page);
             Some (served url_b parasite_page);
             Some (served url_c parasite_page) ] = length [url_a; url_b; url_c] /\
    (forall i address, [url_a; url_b; url_c] !! i = Some address ->
       exists r,
         [ Some (served url_a parasite_page);
           Some (served url_b parasite_page);
           Some (served url_c parasite_page) ] !! i = Some (Some r) /\
         wary_network (length earlier) (batch_headers kept) address = Some r).
Proof.
  apply (get_responses_index_aligned wary_network b_last
           [url_a; url_b; url_c] None false []).
  - intros k. unfold jobs_finish, b_last. cbn. apply perm_skip, perm_swap.
  - reflexivity.
Defined.

(** C7: when every request of the batch fails, the result collection
    holds one [None] per URL; the loop raises the attribute error of
    [None.elapsed] on the first of them, so the call does not end in the
    no-responses error that the check after the loop is there to raise. *)
Lemma all_requests_failed_other_error :
  fst (issue dead_network (in_turn 2) [url_a; url_b] None []) = [None; None] /\
  fst (get_responses dead_network (in_turn 2) [url_a; url_b] None false [])
    = Raise (NoneType_has_no "elapsed") /\
  fst (get_responses dead_network (in_turn 2) [url_a; url_b] None false [])
    <> Raise (AttributeError "No responses were recieved").
Proof. repeat split. discriminate. Qed.

(** * Further properties of the code *)

(** ** calculate_score *)

(** [calculate_score] returns a score exactly for the tags whose first
    class token is [star-display]; on anything else it raises one of four
    exceptions. *)
Theorem calculate_score_domain n :
  ((exists q, calculate_score n = Ok q) <-> accepted_widget n) /\
  (forall e, calculate_score n = Raise e ->
     In e [ TypeError "Input must be of type bs4.element.Tag";
            TypeError "Tag must be of class 'star-display'";
            KeyError "class";
            IndexError "list index out of range" ]).
Proof.
  split; [split |].
  - intros [q H]. apply calculate_score_Ok_inv in H as (name & more & slots & -> & _).
    unfold accepted_widget. eauto.
  - intros (name & more & slots & ->). rewrite calculate_score_widget. eauto.
  - intros e. destruct n as [name [[|c0 more]|] slots | s]; cbn [calculate_score].
    + intros [= <-]. cbn. auto.
    + destruct (String.eqb c0 "star-display"); cbn [negb]; [discriminate |].
      intros [= <-]. cbn. auto.
    + intros [= <-]. cbn. auto.
    + intros [= <-]. cbn. auto.
Qed.

(** The score of a widget adds up over its direct children, and what lies
    below a child plays no part in it. *)
Theorem calculate_score_direct_slots name more slots slots' :
  (exists q q' q'',
     calculate_score (Tag name (Some ("star-display" :: more)) slots) = Ok q /\
     calculate_score (Tag name (Some ("star-display" :: more)) slots') = Ok q' /\
     calculate_score (Tag name (Some ("star-display" :: more)) (slots ++ slots')) = Ok q'' /\
     (q'' == q + q')%Q) /\
  calculate_score (Tag name (Some ("star-display" :: more)) (map prune slots))
  = calculate_score (Tag name (Some ("star-display" :: more)) slots).
Proof.
  split.
  - rewrite !calculate_score_widget. do 3 eexists.
    split; [reflexivity |]. split; [reflexivity |]. split; [reflexivity |].
    rewrite !List.filter_app, !length_app. unfold half_units, Qeq. cbn. lia.
  - rewrite !calculate_score_widget.
    assert (H : forall c, length (List.filter (has_class c) (map prune slots))
                          = length (List.filter (has_class c) slots)).
    { intros c. induction slots as [|[t k cs|t] slots IH]; cbn; [reflexivity | | exact IH].
      destruct k as [tokens|]; cbn; [| exact IH].
      destruct (existsb _ tokens); cbn; now rewrite IH. }
    now rewrite !H.
Qed.

(** The order of the slots in a widget does not change its score. *)
Theorem calculate_score_any_order name cls slots slots' :
  slots ≡ₚ slots' ->
  calculate_score (Tag name cls slots) = calculate_score (Tag name cls slots').
Proof.
  intros Hp.
  assert (H : forall c, length (List.filter (has_class c) slots)
                        = length (List.filter (has_class c) slots')).
  { intros c. induction Hp as [|x l l' _ IH|x y l|l l' l'' _ IH1 _ IH2]; cbn.
    - reflexivity.
    - destruct (has_class c x); cbn; now rewrite IH.
    - destruct (has_class c x), (has_class c y); reflexivity.
    - now rewrite IH1. }
  destruct cls as [[|c0 more]|]; try reflexivity.
  unfold calculate_score. destruct (negb _); [reflexivity |].
  rewrite !find_all_direct. cbn [contents]. now rewrite !H.
Qed.

Lemma calculate_score_any_order_witness :
  calculate_score (star_display [half; filled; filled])
  = calculate_score (star_display [filled; half; filled]).
Proof.
  apply (calculate_score_any_order "span" (Some ["star-display"])
           [half; filled; filled] [filled; half; filled]).
  apply perm_swap.
Defined.

(** ** The scraper's constructor, continued *)

Lemma comprehension_Ok_Forall {A B} (f : A -> result B) l ys :
  comprehension f l = Ok ys -> Forall (fun x => exists y, f x = Ok y) l.
Proof.
  revert ys. induction l as [|x l IH]; cbn; intros ys H; [constructor |].
  destruct (f x) as [y|e] eqn:E; cbn in H; [| discriminate].
  destruct (comprehension f l) as [ys'|e]; cbn in H; [| discriminate].
  constructor; eauto.
Qed.

(** The constructor of scraper.py succeeds exactly on the pages that have
    a rating widget, only widgets that [calculate_score] accepts, a review
    paragraph, and a title node whose text is not empty. *)
Theorem scraper_init_Ok_iff {bytes : Type} (BeautifulSoup : bytes -> Soup) content :
  (exists self, scraper.__init__ BeautifulSoup content = Ok self) <->
  rating_widgets (BeautifulSoup content) <> [] /\
  Forall accepted_widget (rating_widgets (BeautifulSoup content)) /\
  review_nodes (BeautifulSoup content) <> [] /\
  (exists h2, find (Some "h2") "panel-heading" (BeautifulSoup content) = Some h2 /\
              text h2 <> "").
Proof.
  split.
  - intros [self H]. pose proof H as H'.
    apply scraper_init_Ok_inv in H' as (Hs & Ht & Htitle & _).
    revert H. unfold scraper.__init__, extract_review_scores, extract_review_text.
    fold (rating_widgets (BeautifulSoup content)).
    fold (review_nodes (BeautifulSoup content)).
    apply comprehension_Ok_Forall in Hs.
    destruct (rating_widgets _) as [|w ws] eqn:Ew; [discriminate |].
    intros H. split; [discriminate |]. split.
    { eapply Forall_impl; [exact Hs |]. intros n [q Hq].
      apply calculate_score_Ok_inv in Hq as (name & more & slots & -> & _).
      unfold accepted_widget. eauto. }
    destruct (comprehension calculate_score (w :: ws)); [| discriminate].
    cbn [rbind] in H.
    destruct (review_nodes _) as [|r rs]; [discriminate |].
    split; [discriminate |].
    unfold extract_movie_title in Htitle.
    destruct (find _ _ _) as [h2|]; [| discriminate].
    exists h2. split; [reflexivity |].
    destruct (String.eqb_spec (text h2) ""); [discriminate | assumption].
  - intros (Hw & Hall & Hr & h2 & Hh & Ht).
    eapply scraper_init_succeeds; eauto.
Qed.

Lemma descendants_flat_map name cls cs :
  descendants (Tag name cls cs) = flat_map (fun c => c :: descendants c) cs.
Proof.
  cbn. induction cs as [|c cs IH]; [reflexivity |].
  cbn. now rewrite IH.
Qed.

Lemma append_empty (s : string) : s +:+ "" = s.
Proof.
  induction s as [|a s IH]; [reflexivity |].
  change (String a (s +:+ "") = String a s). now rewrite IH.
Qed.

Lemma find_all_page name class_ body :
  find_all name class_ true (page body)
  = List.filter (fun n => has_name name n && has_class class_ n)
      (flat_map (fun c => c :: descendants c) body).
Proof.
  unfold find_all, page. rewrite !descendants_flat_map. cbn [flat_map].
  rewrite !descendants_flat_map. cbn [flat_map].
  rewrite !app_nil_r. cbn [List.filter has_class].
  rewrite !andb_false_r. reflexivity.
Qed.

Lemma slots_descendants f h :
  flat_map (fun c => c :: descendants c) (repeat filled f ++ repeat half h)
  = repeat filled f ++ repeat half h.
Proof.
  induction f as [|f IH]; cbn.
  - induction h as [|h IH]; cbn; [reflexivity | now rewrite IH].
  - now rewrite IH.
Qed.

Lemma slots_not_selected (P : Node -> bool) f h :
  P filled = false -> P half = false ->
  List.filter P (repeat filled f ++ repeat half h) = [].
Proof.
  intros Hf Hh. induction f as [|f IH]; cbn.
  - induction h as [|h IH]; cbn; [reflexivity | now rewrite Hh].
  - now rewrite Hf.
Qed.

Lemma slots_count f h :
  length (List.filter (has_class "star-display__filled") (repeat filled f ++ repeat half h)) = f /\
  length (List.filter (has_class "star-display__half") (repeat filled f ++ repeat half h)) = h.
Proof.
  induction f as [|f [IH1 IH2]]; cbn.
  - induction h as [|h [IH1 IH2]]; cbn; [auto |]. cbn in IH1. rewrite IH1, IH2. auto.
  - rewrite IH1, IH2. auto.
Qed.

Lemma review_blocks_selected (P : Node -> bool) reviews :
  P filled = false -> P half = false ->
  (forall s, P (NavigableString s) = false) ->
  List.filter P (flat_map (fun c => c :: descendants c) (concat (map review_block reviews)))
  = List.filter P
      (flat_map (fun r => [star_display (repeat filled (fst (fst r)) ++ repeat half (snd (fst r)));
                           review (review_body r)]) reviews).
Proof.
  intros Hf Hh Hs. induction reviews as [|[[f h] body] reviews IH]; [reflexivity |].
  cbn [map concat flat_map]. rewrite List.flat_map_app, !List.filter_app, IH.
  f_equal. unfold review_block, star_display, review.
  cbn [flat_map]. rewrite !descendants_flat_map, slots_descendants.
  cbn [flat_map descendants app fst snd review_body].
  cbn [List.filter]. rewrite List.filter_app.
  rewrite (slots_not_selected P f h Hf Hh). cbn [List.filter app].
  rewrite Hs.
  destruct (P (Tag "span" _ _)), (P (Tag "p" _ _)); reflexivity.
Qed.

(** Round trip: a page written out from a heading and a list of reviews is
    read back as those reviews, in order: one score and one text per
    review, and the heading without its last eight characters as the
    title of each. *)
Theorem scraper_init_review_page {bytes : Type} (BeautifulSoup : bytes -> Soup)
    content heading reviews :
  BeautifulSoup content = review_page heading reviews ->
  reviews <> [] ->
  heading <> "" ->
  scraper.__init__ BeautifulSoup content
  = Ok {| scraper.review_scores := map review_score reviews;
          scraper.review_text := map review_body reviews;
          scraper.title := slice_stop heading (-8);
          scraper.titles := repeat (slice_stop heading (-8)) (length reviews) |}.
Proof.
  intros Hpage Hne Hh.
  assert (Hw : find_all None "star-display" true (review_page heading reviews)
               = map (fun r => star_display (repeat filled (fst (fst r))
                                               ++ repeat half (snd (fst r)))) reviews).
  { unfold review_page. rewrite find_all_page. cbn [flat_map].
    rewrite List.filter_app, review_blocks_selected by reflexivity.
    cbn. clear. induction reviews as [|[[f h] body] reviews IH]; [reflexivity |].
    cbn. now rewrite IH. }
  assert (Hr : find_all (Some "p") "audience-reviews__review" true
                 (review_page heading reviews)
               = map (fun r => review (review_body r)) reviews).
  { unfold review_page. rewrite find_all_page. cbn [flat_map].
    rewrite List.filter_app, review_blocks_selected by reflexivity.
    cbn. clear. induction reviews as [|[[f h] body] reviews IH]; [reflexivity |].
    cbn. now rewrite IH. }
  assert (Ht : find (Some "h2") "panel-heading" (review_page heading reviews)
               = Some (panel_heading heading)).
  { unfold find, review_page. rewrite find_all_page. reflexivity. }
  assert (Hs : comprehension calculate_score
                 (map (fun r => star_display (repeat filled (fst (fst r))
                                                ++ repeat half (snd (fst r)))) reviews)
               = Ok (map review_score reviews)).
  { clear. induction reviews as [|[[f h] body] reviews IH]; [reflexivity |].
    cbn [map comprehension fst snd]. unfold star_display at 1.
    rewrite calculate_score_widget.
    destruct (slots_count f h) as [-> ->]. cbn [rbind]. rewrite IH. reflexivity. }
  unfold scraper.__init__, extract_review_scores, extract_review_text.
  rewrite Hpage, Hw, Hr, (extract_movie_title_found _ _ _ Ht).
  destruct reviews as [|r reviews]; [congruence |].
  cbn [map]. cbn [map] in Hs. rewrite Hs. cbn [rbind].
  assert (Htext : text (panel_heading heading) = heading) by apply append_empty.
  rewrite Htext. destruct (String.eqb_spec heading ""); [congruence |].
  cbn [rbind]. f_equal. f_equal.
  - f_equal.
    + unfold review, text. now rewrite append_empty.
    + rewrite map_map. apply map_ext. intros a. unfold review, text.
      now rewrite append_empty.
  - cbn [map length repeat]. f_equal.
    now rewrite map_const_repeat, length_map.
Qed.

Lemma scraper_init_review_page_witness :
  scraper.__init__ (fun soup : Soup => soup)
    (review_page "Parasite Reviews" [(4, 1, "Superb."); (2, 0, "Too long.")])
  = Ok {| scraper.review_scores := [half_units 4 1; half_units 2 0];
          scraper.review_text := ["Superb."; "Too long."];
          scraper.title := "Parasite";
          scraper.titles := ["Parasite"; "Parasite"] |}.
Proof.
  apply (scraper_init_review_page (fun soup : Soup => soup)
           (review_page "Parasite Reviews" [(4, 1, "Superb."); (2, 0, "Too long.")])
           "Parasite Reviews" [(4, 1, "Superb."); (2, 0, "Too long.")]).
  - reflexivity.
  - discriminate.
  - discriminate.
Defined.

(** ** The two scraper files *)

Section TwoFiles.
Context {bytes : Type} (BeautifulSoup : bytes -> Soup).
Variable requests_get : string -> result (Response bytes).

Lemma fetch_src_content_fetched source src :
  requests_get source = Ok src ->
  raise_for_status src = Ok tt ->
  RottenTomatoesScraper.fetch_src_content requests_get source = Ok (content src).
Proof.
  intros Hg Hs. unfold RottenTomatoesScraper.fetch_src_content.
  rewrite Hg. cbn [rbind]. rewrite Hs. reflexivity.
Qed.

Lemma older_init source src :
  requests_get source = Ok src ->
  raise_for_status src = Ok tt ->
  RottenTomatoesScraper.__init__ BeautifulSoup requests_get source
  = match scraper.__init__ BeautifulSoup (content src) with
    | Ok self => Ok (older self)
    | Raise e => Raise (older_exn e)
    end.
Proof.
  intros Hg Hs. unfold RottenTomatoesScraper.__init__, scraper.__init__.
  rewrite (fetch_src_content_fetched _ _ Hg Hs). cbn [rbind].
  unfold extract_review_scores, extract_review_text, extract_movie_title.
  destruct (find_all None _ true _) as [|w ws] eqn:Ew; [reflexivity |].
  destruct (comprehension calculate_score (w :: ws)) as [scores|e] eqn:Ec.
  2:{ cbn [rbind].
      apply comprehension_Raise in Ec as (n & Hn & Hr). rewrite <- Ew in Hn.
      apply find_all_has_class in Hn.
      rewrite (calculate_score_on_selected _ _ Hn Hr). reflexivity. }
  cbn [rbind].
  destruct (find_all (Some "p") _ true _) as [|r rs]; [reflexivity |].
  cbn [rbind].
  destruct (find _ _ _) as [h2|]; [| reflexivity].
  destruct (String.eqb _ _); reflexivity.
Qed.

(** Once the page is fetched, the constructor of RottenTomatoesScraper.py
    does on a URL what the constructor of scraper.py does on the page's
    content: the same scores, texts and title, or the same exception, the
    three not-found errors being of class [NotFoundError] in the first
    file and of class [AttributeError] in the second. *)
Theorem constructors_agree source src :
  requests_get source = Ok src ->
  raise_for_status src = Ok tt ->
  RottenTomatoesScraper.__init__ BeautifulSoup requests_get source
  = match scraper.__init__ BeautifulSoup (content src) with
    | Ok self => Ok (older self)
    | Raise e => Raise (older_exn e)
    end.
Proof. exact (older_init source src). Qed.

(** [fetch_src_content] hands over the content of exactly the responses
    whose status is outside 400..599; for a status inside that range the
    constructor raises an HTTP error, whatever the page holds. *)
Theorem fetch_src_content_status source src :
  requests_get source = Ok src ->
  (RottenTomatoesScraper.fetch_src_content requests_get source = Ok (content src)
   <-> ~ (400 <= status_code src < 600)%Z) /\
  ((400 <= status_code src < 600)%Z ->
   exists msg,
     RottenTomatoesScraper.fetch_src_content requests_get source
       = Raise (HTTPError msg) /\
     RottenTomatoesScraper.__init__ BeautifulSoup requests_get source
       = Raise (HTTPError msg)).
Proof.
  intros Hg.
  unfold RottenTomatoesScraper.__init__, RottenTomatoesScraper.fetch_src_content.
  rewrite Hg. cbn [rbind]. unfold raise_for_status.
  destruct (Z.leb_spec 400 (status_code src)), (Z.ltb_spec (status_code src) 500);
    cbn [andb rbind].
  - split; [split; [discriminate | lia] | eauto].
  - destruct (Z.leb_spec 500 (status_code src)), (Z.ltb_spec (status_code src) 600);
      cbn [andb rbind]; try lia.
    + split; [split; [discriminate | lia] | eauto].
    + split; [split; [lia | reflexivity] | lia].
  - destruct (Z.leb_spec 500 (status_code src)); cbn [andb rbind]; [lia |].
    split; [split; [lia | reflexivity] | lia].
  - destruct (Z.leb_spec 500 (status_code src)); cbn [andb rbind]; [lia |].
    split; [split; [lia | reflexivity] | lia].
Qed.

(** A request that cannot be made raises out of the constructor as it is. *)
Lemma older_init_request_failed source e :
  requests_get source = Raise e ->
  RottenTomatoesScraper.__init__ BeautifulSoup requests_get source = Raise e.
Proof.
  intros Hg. unfold RottenTomatoesScraper.__init__,
    RottenTomatoesScraper.fetch_src_content. now rewrite Hg.
Qed.

(** On a page with ratings and review texts but no title node, both
    constructors raise the attribute error of [None.text], not their
    not-found error. *)
Theorem init_without_title_node source src :
  requests_get source = Ok src ->
  raise_for_status src = Ok tt ->
  rating_widgets (BeautifulSoup (content src)) <> [] ->
  Forall accepted_widget (rating_widgets (BeautifulSoup (content src))) ->
  review_nodes (BeautifulSoup (content src)) <> [] ->
  find (Some "h2") "panel-heading" (BeautifulSoup (content src)) = None ->
  scraper.__init__ BeautifulSoup (content src) = Raise (NoneType_has_no "text") /\
  RottenTomatoesScraper.__init__ BeautifulSoup requests_get source
    = Raise (NoneType_has_no "text").
Proof.
  intros Hg Hs Hw Hall Hr Hf.
  assert (H : scraper.__init__ BeautifulSoup (content src)
              = Raise (NoneType_has_no "text")).
  { unfold scraper.__init__, extract_review_scores, extract_review_text.
    fold (rating_widgets (BeautifulSoup (content src))).
    fold (review_nodes (BeautifulSoup (content src))).
    destruct (comprehension_total calculate_score
                (rating_widgets (BeautifulSoup (content src)))) as [scores Hsc].
    { eapply Forall_impl; [exact Hall |].
      intros n (name & more & slots & ->). rewrite calculate_score_widget. eauto. }
    destruct (rating_widgets _) as [|w ws]; [congruence |].
    rewrite Hsc. cbn [rbind].
    destruct (review_nodes _) as [|r rs]; [congruence |].
    cbn [rbind]. now rewrite (extract_movie_title_absent _ _ Hf). }
  split; [exact H |]. rewrite (older_init _ _ Hg Hs), H. reflexivity.
Qed.
End TwoFiles.

Lemma constructors_agree_witness :
  RottenTomatoesScraper.__init__ (fun soup : Soup => soup) requests_get_unaligned
    "https://www.rottentomatoes.com/m/parasite_2019/reviews?type=user"
  = Ok {| RottenTomatoesScraper.review_scores :=
            [half_units 4 1; half_units 2 0; half_units 0 1];
          RottenTomatoesScraper.review_text := ["Superb."; "Too long."];
          RottenTomatoesScraper.title := "Parasite" |}.
Proof.
  exact (constructors_agree (fun soup : Soup => soup) requests_get_unaligned
           "https://www.rottentomatoes.com/m/parasite_2019/reviews?type=user"
           (served "https://www.rottentomatoes.com/m/parasite_2019/reviews?type=user"
              unaligned_page)
           eq_refl eq_refl).
Defined.

Lemma fetch_src_content_status_witness :
  exists msg,
    RottenTomatoesScraper.fetch_src_content requests_get_blocked url_b
      = Raise (HTTPError msg) /\
    RottenTomatoesScraper.__init__ (fun soup : Soup => soup) requests_get_blocked url_b
      = Raise (HTTPError msg).
Proof.
  apply (fetch_src_content_status (fun soup : Soup => soup) requests_get_blocked
           url_b (blocked url_b) eq_refl).
  cbn. lia.
Defined.

Lemma init_without_title_node_witness :
  scraper.__init__ (fun soup : Soup => soup) untitled_page
    = Raise (AttributeError "'NoneType' object has no attribute 'text'") /\
  RottenTomatoesScraper.__init__ (fun soup : Soup => soup) requests_get_untitled url_a
    = Raise (AttributeError "'NoneType' object has no attribute 'text'").
Proof.
  apply (init_without_title_node (fun soup : Soup => soup) requests_get_untitled
           url_a (served url_a untitled_page)).
  - reflexivity.
  - reflexivity.
  - discriminate.
  - repeat constructor. unfold accepted_widget. eauto.
  - discriminate.
  - reflexivity.
Defined.

(** ** Batch fetching, continued *)

Section FetcherMore.
Context {bytes : Type}.
Variable send : nat -> Headers -> string -> option (Response bytes).
Variable completion : nat -> list nat.

(** A call issues one batch, or two when it is not itself the retry; each
    batch is for the whole URL list, the first under the headers given
    (Safari's when none are given) and the second under [firefox_header].
    A call with [retry=True] issues exactly one batch, so there is never a
    third. *)
Theorem get_responses_one_or_two_batches urls headers retry w :
  let first := {| batch_headers := default_headers headers; batch_urls := urls |} in
  let second := {| batch_headers := firefox_header; batch_urls := urls |} in
  snd (get_responses send completion urls headers retry w) = w ++ [first] \/
  (retry = false /\
   snd (get_responses send completion urls headers retry w) = w ++ [first; second]).
Proof.
  cbn zeta. rewrite get_responses_batches.
  destruct retry; cbn [negb andb]; [now left |].
  destruct (met_403 _); [right | left]; auto.
Qed.

(** Retry once: when the first batch runs into a 403, every request
    listed before it having been answered, the whole URL list is fetched a
    second time under [firefox_header] and the call returns what that
    second batch gives; a 403 reached in the second batch raises the HTTP
    error. *)
Theorem get_responses_retry_once urls headers w :
  reaches_403 (fst (issue send completion urls headers w)) ->
  snd (get_responses send completion urls headers false w)
    = w ++ [ {| batch_headers := default_headers headers; batch_urls := urls |};
             {| batch_headers := firefox_header; batch_urls := urls |} ] /\
  get_responses send completion urls headers false w
    = get_responses send completion urls (Some firefox_header) true
        (w ++ [ {| batch_headers := default_headers headers; batch_urls := urls |} ]) /\
  (reaches_403
     (fst (issue send completion urls (Some firefox_header)
             (w ++ [ {| batch_headers := default_headers headers;
                        batch_urls := urls |} ]))) ->
   fst (get_responses send completion urls headers false w)
   = Raise (HTTPError "Received 403 error again: check size, headers, and URL's")).
Proof. intros H. exact (get_responses_retries_once send completion urls headers w H). Qed.

Lemma parse_reviews_Raise (BeautifulSoup : bytes -> Soup)
    (answered : list (Response bytes)) titles review_text review_scores e :
  parse_reviews BeautifulSoup (map Some answered) titles review_text review_scores
    = Raise e ->
  exists r, In r answered /\ scraper.__init__ BeautifulSoup (content r) = Raise e.
Proof.
  revert titles review_text review_scores.
  induction answered as [|r answered IH]; intros titles review_text review_scores;
    cbn; [discriminate |].
  destruct (scraper.__init__ BeautifulSoup (content r)) as [d|e'] eqn:E; cbn [rbind].
  - intros H. destruct (IH _ _ _ H) as (r' & ? & ?). eauto.
  - intros [= <-]. eauto.
Qed.

(** What [get_responses] returns can go straight into [generate_df]: the
    list is not empty, every element is a response (none is [None]), none
    has status 403, and [generate_df] does not fail on a missing
    response. *)
Theorem get_responses_Ok_answered (BeautifulSoup : bytes -> Soup)
    urls headers retry w responses w' :
  get_responses send completion urls headers retry w = (Ok responses, w') ->
  responses <> [] /\
  (exists answered,
     responses = map Some answered /\
     Forall (fun r => status_code r <> 403%Z) answered) /\
  generate_df BeautifulSoup responses <> Raise (NoneType_has_no "content").
Proof.
  intros H. apply get_responses_Ok_inv in H as (_ & _ & time & _ & _ & Hs & Hne).
  apply scan_Completed in Hs.
  assert (Ha : exists answered,
             responses = map Some answered /\
             Forall (fun r => status_code r <> 403%Z) answered).
  { clear Hne. induction Hs as [|o rest (r & -> & Hr) _ (answered & -> & IH)].
    - exists []. split; [reflexivity | constructor].
    - exists (r :: answered). split; [reflexivity | now constructor]. }
  split; [exact Hne |]. split; [exact Ha |].
  destruct Ha as (answered & -> & _). unfold generate_df.
  destruct (parse_reviews BeautifulSoup (map Some answered) [] [] []) as [[[t x] s]|e] eqn:E.
  - cbn [rbind]. unfold DataFrame_from_dict. destruct (forallb _ _); discriminate.
  - cbn [rbind]. apply parse_reviews_Raise in E as (r & _ & Hr).
    apply scraper_init_Raise_inv in Hr. cbn in Hr. intros [= ->].
    repeat destruct Hr as [Hr|Hr]; try discriminate Hr; contradiction.
Qed.

(** The order in which the requests of a batch complete changes nothing
    in what a call does: not the result, not the exception, not the
    batches issued. *)
Theorem get_responses_completion_irrelevant completion' urls headers retry w :
  (forall k, jobs_finish completion k (length urls)) ->
  (forall k, jobs_finish completion' k (length urls)) ->
  get_responses send completion urls headers retry w
  = get_responses send completion' urls headers retry w.
Proof. apply get_responses_any_completion. Qed.
End FetcherMore.

Lemma get_responses_retry_once_witness :
  snd (get_responses hostile_network b_last [url_a; url_b; url_c] None false [])
    = [ {| batch_headers := safari_header; batch_urls := [url_a; url_b; url_c] |};
        {| batch_headers := firefox_header; batch_urls := [url_a; url_b; url_c] |} ] /\
  fst (get_responses hostile_network b_last [url_a; url_b; url_c] None false [])
    = Raise (HTTPError "Received 403 error again: check size, headers, and URL's").
Proof.
  destruct (get_responses_retry_once hostile_network b_last
              [url_a; url_b; url_c] None []) as (Hw & _ & Hraise).
  - exists [served url_a parasite_page], (blocked url_b),
      [Some (served url_c parasite_page)].
    split; [reflexivity |]. split; [| reflexivity].
    constructor; [discriminate | constructor].
  - split; [exact Hw |]. apply Hraise.
    exists [served url_a parasite_page], (blocked url_b),
      [Some (served url_c parasite_page)].
    split; [reflexivity |]. split; [| reflexivity].
    constructor; [discriminate | constructor].
Defined.

Lemma get_responses_Ok_answered_witness :
  [ Some (served url_a parasite_page);
    Some (served url_b parasite_page);
    Some (served url_c parasite_page) ] <> [] /\
  (exists answered,
     [ Some (served url_a parasite_page);
       Some (served url_b parasite_page);
       Some (served url_c parasite_page) ] = map Some answered /\
     Forall (fun r => status_code r <> 403%Z) answered) /\
  generate_df (fun soup : Soup => soup)
    [ Some (served url_a parasite_page);
      Some (served url_b parasite_page);
      Some (served url_c parasite_page) ] <> Raise (NoneType_has_no "content").
Proof.
  apply (get_responses_Ok_answered wary_network b_last (fun soup : Soup => soup)
           [url_a; url_b; url_c] None false []
           [ Some (served url_a parasite_page);
             Some (served url_b parasite_page);
             Some (served url_c parasite_page) ]
           [ {| batch_headers := safari_header; batch_urls := [url_a; url_b; url_c] |};
             {| batch_headers := firefox_header; batch_urls := [url_a; url_b; url_c] |} ]).
  reflexivity.
Defined.

Lemma get_responses_completion_irrelevant_witness :
  get_responses wary_network b_last [url_a; url_b; url_c] None false []
  = get_responses wary_network (in_turn 3) [url_a; url_b; url_c] None false [].
Proof.
  apply (get_responses_completion_irrelevant wary_network b_last (in_turn 3)
           [url_a; url_b; url_c] None false []).
  - intros k. unfold jobs_finish, b_last. cbn. apply perm_skip, perm_swap.
  - intros k. unfold jobs_finish, in_turn. reflexivity.
Defined.

(** ** Dataset assembly, continued *)

Section AssemblerMore.
Context {bytes : Type} (BeautifulSoup : bytes -> Soup).

Lemma scraped_titles_length response movie_data :
  scraped BeautifulSoup response movie_data ->
  length (scraper.titles movie_data) = length (scraper.review_scores movie_data).
Proof.
  intros H. apply scraper_init_Ok_inv in H as (_ & _ & _ & ->). apply length_map.
Qed.

Lemma concat_lengths {A B C : Type} (f : A -> list B) (g : A -> list C) (l : list A) :
  Forall (fun a => length (f a) = length (g a)) l ->
  length (concat (map f l)) = length (concat (map g l)).
Proof.
  induction 1 as [|a l Ha _ IH]; cbn; [reflexivity |].
  rewrite !length_app. lia.
Qed.

(** When every page is scraped and each has as many texts as scores, the
    data frame is made of the pages' titles, texts and scores, page after
    page in the order of the responses, and each column has one entry per
    score.  No response at all gives the frame with three empty columns. *)
Theorem generate_df_concatenates responses data :
  Forall2 (scraped BeautifulSoup) responses data ->
  Forall (fun d => length (scraper.review_text d) = length (scraper.review_scores d))
    data ->
  generate_df BeautifulSoup (map Some responses)
  = Ok {| df_columns :=
            [ ("Title", Strings (concat (map scraper.titles data)));
              ("Review Text", Strings (concat (map scraper.review_text data)));
              ("Review Score", Numbers (concat (map scraper.review_scores data))) ] |} /\
  length (concat (map scraper.titles data))
    = length (concat (map scraper.review_scores data)) /\
  length (concat (map scraper.review_text data))
    = length (concat (map scraper.review_scores data)).
Proof.
  intros Hs Ha.
  assert (Ht : length (concat (map scraper.titles data))
               = length (concat (map scraper.review_scores data))).
  { apply concat_lengths. clear Ha.
    induction Hs as [|r d rs ds Hr _ IH]; constructor; [| exact IH].
    eapply scraped_titles_length; eauto. }
  assert (Hx : length (concat (map scraper.review_text data))
               = length (concat (map scraper.review_scores data))).
  { now apply concat_lengths. }
  split; [| split; assumption].
  rewrite (generate_df_all_scraped _ _ _ Hs). unfold DataFrame_from_dict.
  cbn [forallb snd column_len]. rewrite Hx, Ht, !Nat.eqb_refl. reflexivity.
Qed.
End AssemblerMore.

Lemma generate_df_concatenates_witness :
  generate_df (fun soup : Soup => soup)
    [Some (served "/m/parasite_2019" parasite_page);
     Some (served "/m/joker_2019" joker_page)]
  = Ok {| df_columns :=
            [ ("Title", Strings ["Parasite"; "Parasite"; "Joker"]);
              ("Review Text", Strings ["Superb."; "Gripping."; "Bleak."]);
              ("Review Score",
               Numbers [half_units 4 0; half_units 3 1; half_units 2 0]) ] |}.
Proof.
  refine (proj1 (generate_df_concatenates (fun soup : Soup => soup)
            [served "/m/parasite_2019" parasite_page; served "/m/joker_2019" joker_page]
            [ {| scraper.review_scores := [half_units 4 0; half_units 3 1];
                 scraper.review_text := ["Superb."; "Gripping."];
                 scraper.title := "Parasite";
                 scraper.titles := ["Parasite"; "Parasite"] |};
              {| scraper.review_scores := [half_units 2 0];
                 scraper.review_text := ["Bleak."];
                 scraper.title := "Joker";
                 scraper.titles := ["Joker"] |} ] _ _)).
  - constructor; [reflexivity |]. constructor; [reflexivity |]. constructor.
  - constructor; [reflexivity |]. constructor; [reflexivity |]. constructor.
Defined.

(** ** URL discovery *)

Lemma gather_urls_app rows rows' urls :
  gather_urls (rows ++ rows') urls
  = match gather_urls rows urls with
    | Ok urls' => gather_urls rows' urls'
    | Raise e => Raise e
    end.
Proof.
  revert urls. induction rows as [|tag rows IH]; intros urls; [reflexivity |].
  cbn [app gather_urls].
  destruct (rbind (child_tag "a" tag) _) as [path|[]]; auto.
Qed.

Lemma gather_urls_linked tag href rest urls :
  linked tag href ->
  gather_urls (tag :: rest) urls = gather_urls rest (urls ++ [review_url href]).
Proof.
  intros (a & Ha & Hs). cbn [gather_urls]. rewrite Ha. cbn [rbind]. now rewrite Hs.
Qed.


Lemma gather_urls_shape rows urls urls' :
  gather_urls rows urls = Ok urls' ->
  exists found,
    urls' = urls ++ map review_url found /\ length found <= length rows.
Proof.
  revert urls. induction rows as [|tag rows IH]; intros urls; cbn [gather_urls].
  - intros [= <-]. exists []. cbn. now rewrite app_nil_r.
  - destruct (rbind (child_tag "a" tag) _) as [path|e].
    + intros H. apply IH in H as (found & -> & Hl).
      exists (path :: found). cbn. rewrite <- app_assoc. split; [reflexivity | lia].
    + destruct e; try discriminate.
      intros H. apply IH in H as (found & -> & Hl).
      exists found. split; [reflexivity | cbn; lia].
Qed.

(** When every row has a link with an [href], there is one URL per row, in
    the order of the rows: the site, the row's [href] and the path of the
    user reviews. *)
Theorem get_user_review_urls_all_linked rows hrefs :
  Forall2 linked rows hrefs ->
  get_user_review_urls_from_tags rows
  = Ok (map (fun href => RT_url +:+ href +:+ "/reviews?type=user") hrefs).
Proof.
  intros H. unfold get_user_review_urls_from_tags.
  change (map _ hrefs) with ([] ++ map review_url hrefs).
  generalize (@nil string) as urls.
  induction H as [|tag href rows hrefs Hl _ IH]; intros urls; cbn [map].
  - cbn. now rewrite app_nil_r.
  - rewrite (gather_urls_linked _ _ _ _ Hl), IH, <- app_assoc. reflexivity.
Qed.


(** A row whose first link has no [href] is not passed over: the
    [KeyError] it raises is not caught and no URL list is returned,
    whatever rows follow. *)
Theorem get_user_review_urls_missing_href before urls bad name cls attrs children after :
  get_user_review_urls_from_tags before = Ok urls ->
  child_tag "a" bad = Ok (Some (ETag name cls attrs children)) ->
  attrs !! "href" = None ->
  get_user_review_urls_from_tags (before ++ bad :: after) = Raise (KeyError "href").
Proof.
  unfold get_user_review_urls_from_tags. intros Hb Ha Hh.
  rewrite gather_urls_app, Hb. cbn [gather_urls]. rewrite Ha. cbn [rbind subscript].
  now rewrite Hh.
Qed.

(** Every URL returned is the site followed by a path and by the path of
    the user reviews, and there are at most as many URLs as rows. *)
Theorem get_user_review_urls_shape rows urls :
  get_user_review_urls_from_tags rows = Ok urls ->
  length urls <= length rows /\
  Forall (fun url => exists href,
            url = "https://www.rottentomatoes.com" +:+ href +:+ "/reviews?type=user")
    urls.
Proof.
  intros H. apply gather_urls_shape in H as (found & -> & Hl). cbn [app].
  rewrite length_map. split; [exact Hl |].
  apply Forall_forall. intros url Hin. apply list_elem_of_In, in_map_iff in Hin.
  destruct Hin as (href & <- & _). exists href. reflexivity.
Qed.

Lemma get_user_review_urls_all_linked_witness :
  get_user_review_urls_from_tags
    [movie_row "/m/parasite_2019" "Parasite"; movie_row "/m/joker_2019" "Joker"]
  = Ok [url_a; url_b].
Proof.
  apply (get_user_review_urls_all_linked
           [movie_row "/m/parasite_2019" "Parasite"; movie_row "/m/joker_2019" "Joker"]
           ["/m/parasite_2019"; "/m/joker_2019"]).
  constructor; [| constructor; [| constructor]].
  - eexists. split; reflexivity.
  - eexists. split; reflexivity.
Defined.

Lemma get_user_review_urls_missing_href_witness :
  get_user_review_urls_from_tags
    ([header_row; movie_row "/m/parasite_2019" "Parasite"]
       ++ anchor_row :: [movie_row "/m/joker_2019" "Joker"])
  = Raise (KeyError "href").
Proof.
  apply (get_user_review_urls_missing_href
           [header_row; movie_row "/m/parasite_2019" "Parasite"] [url_a]
           anchor_row "a" None {[ "name" := "top" ]} []
           [movie_row "/m/joker_2019" "Joker"]).
  - reflexivity.
  - reflexivity.
  - reflexivity.
Defined.

Lemma get_user_review_urls_shape_witness :
  length [url_a; url_b] <= 3 /\
  Forall (fun url => exists href,
            url = "https://www.rottentomatoes.com" +:+ href +:+ "/reviews?type=user")
    [url_a; url_b].
Proof.
  apply (get_user_review_urls_shape
           [header_row; movie_row "/m/parasite_2019" "Parasite";
            movie_row "/m/joker_2019" "Joker"] [url_a; url_b]).
  reflexivity.
Defined.

Section IndexPage.
Context {bytes : Type}.
Variable lxml : bytes -> Element.
Variable requests_get : string -> Headers -> result (Response bytes).

(** When [get_top_100_movie_tags] returns, the list is not empty, the
    index page of that year was requested once under the headers given
    (Safari's when none are given) and answered with a status outside
    400..599, and every element returned is a [tr] tag of the page that has
    no [class] attribute. *)
Theorem get_top_100_movie_tags_Ok year headers movie_tags :
  get_top_100_movie_tags lxml requests_get year headers = Ok movie_tags ->
  movie_tags <> [] /\
  exists src,
    requests_get ("https://www.rottentomatoes.com/top/bestofrt/?year=" +:+ pretty year)
      (default_headers headers) = Ok src /\
    ~ (400 <= status_code src < 600)%Z /\
    Forall (fun tag => exists attrs children,
              tag = ETag "tr" None attrs children /\
              In tag (element_descendants (lxml (content src))))
      movie_tags.
Proof.
  unfold get_top_100_movie_tags.
  change (RT_url +:+ ("/top/bestofrt/?year=" +:+ pretty year))
    with ("https://www.rottentomatoes.com/top/bestofrt/?year=" +:+ pretty year).
  destruct (requests_get _ _) as [src|e]; [| discriminate]. cbn [rbind].
  unfold raise_for_status.
  destruct (Z.leb_spec 400 (status_code src)), (Z.ltb_spec (status_code src) 500);
    cbn [andb rbind]; try discriminate;
    destruct (Z.leb_spec 500 (status_code src)), (Z.ltb_spec (status_code src) 600);
    cbn [andb rbind]; try discriminate; try lia.
  all: destruct (List.filter _ _) as [|t ts] eqn:Ef; [discriminate |].
  all: intros [= <-]; split; [discriminate |].
  all: exists src; split; [reflexivity |]; split; [lia |].
  all: rewrite <- Ef; apply Forall_forall; intros tag Hin.
  all: apply list_elem_of_In, List.filter_In in Hin as [Hin Hp].
  all: apply andb_prop in Hp as [Hn Hc].
  all: destruct tag as [name [tokens|] attrs children | s]; try discriminate.
  all: apply String.eqb_eq in Hn; subst name.
  all: exists attrs, children; auto.
Qed.

(** With the index request answered: a status in 400..599 raises an HTTP
    error before the page is looked at, and a page without any [tr] tag
    free of a [class] attribute raises the no-movie-tags error.  An empty
    list is never returned. *)
Theorem get_top_100_movie_tags_failures year headers src :
  requests_get (RT_url +:+ "/top/bestofrt/?year=" +:+ pretty year)
    (default_headers headers) = Ok src ->
  ((400 <= status_code src < 600)%Z ->
   exists msg,
     get_top_100_movie_tags lxml requests_get year headers = Raise (HTTPError msg)) /\
  (~ (400 <= status_code src < 600)%Z ->
   List.filter (fun e => is_tag "tr" e && lacks_class e)
     (element_descendants (lxml (content src))) = [] ->
   get_top_100_movie_tags lxml requests_get year headers
   = Raise (AttributeError "No movie tags were found, check URL?")) /\
  get_top_100_movie_tags lxml requests_get year headers <> Ok [].
Proof.
  intros Hg. unfold get_top_100_movie_tags. rewrite Hg. cbn [rbind].
  unfold raise_for_status.
  destruct (Z.leb_spec 400 (status_code src)), (Z.ltb_spec (status_code src) 500);
    cbn [andb rbind].
  - split; [eauto |]. split; [lia | discriminate].
  - destruct (Z.leb_spec 500 (status_code src)), (Z.ltb_spec (status_code src) 600);
      cbn [andb rbind]; try lia.
    + split; [eauto |]. split; [lia | discriminate].
    + split; [lia |]. split; [intros _ ->; reflexivity |].
      destruct (List.filter _ _); discriminate.
  - destruct (Z.leb_spec 500 (status_code src)); cbn [andb rbind]; [lia |].
    split; [lia |]. split; [intros _ ->; reflexivity |].
    destruct (List.filter _ _); discriminate.
  - destruct (Z.leb_spec 500 (status_code src)); cbn [andb rbind]; [lia |].
    split; [lia |]. split; [intros _ ->; reflexivity |].
    destruct (List.filter _ _); discriminate.
Qed.

Variable send : nat -> Headers -> string -> option (Response bytes).
Variable completion : nat -> list nat.

End IndexPage.

Lemma get_top_100_movie_tags_Ok_witness :
  exists movie_tags,
    get_top_100_movie_tags (fun body : Element => body)
      (index_served (index_page [header_row; movie_row "/m/parasite_2019" "Parasite"]))
      2019 None = Ok movie_tags /\
    movie_tags = [header_row; movie_row "/m/parasite_2019" "Parasite"] /\
    movie_tags <> [].
Proof.
  eexists. split; [reflexivity |]. split; [reflexivity |].
  apply (get_top_100_movie_tags_Ok (fun body : Element => body)
           (index_served (index_page [header_row; movie_row "/m/parasite_2019" "Parasite"]))
           2019 None).
  reflexivity.
Defined.

Lemma get_top_100_movie_tags_failures_witness :
  get_top_100_movie_tags (fun body : Element => body)
    (index_served (index_page [])) 2019 None
  = Raise (AttributeError "No movie tags were found, check URL?").
Proof.
  apply (get_top_100_movie_tags_failures (fun body : Element => body)
           (index_served (index_page [])) 2019 None
           (served "https://www.rottentomatoes.com/top/bestofrt/?year=2019"
              (index_page []))).
  - reflexivity.
  - cbn. lia.
  - reflexivity.
Defined.

Section EmptyDiscovery.
Context {bytes : Type}.
Variable lxml : bytes -> Element.
Variable requests_get : string -> Headers -> result (Response bytes).
Variable send : nat -> Headers -> string -> option (Response bytes).
Variable completion : nat -> list nat.

Lemma get_responses_no_urls headers retry w :
  get_responses send completion [] headers retry w
  = (Raise (AttributeError "No responses were recieved"),
     w ++ [ {| batch_headers := default_headers headers; batch_urls := [] |} ]).
Proof.
  rewrite get_responses_unfold.
  pose proof (issue_no_urls send completion headers w) as Hn.
  pose proof (issue_world send completion [] headers w) as Hw.
  destruct (issue send completion [] headers w) as [rs w1]. cbn in Hn, Hw.
  subst rs w1. reflexivity.
Qed.

(** When the index page gives rows but none of them yields a URL, the
    script still issues one batch, for no URL at all, and ends with the
    no-responses error; no page is parsed. *)
Theorem main_no_urls movie_tags w :
  get_top_100_movie_tags lxml requests_get 2019 None = Ok movie_tags ->
  get_user_review_urls_from_tags movie_tags = Ok [] ->
  main lxml requests_get send completion w
  = (Raise (AttributeError "No responses were recieved"),
     w ++ [ {| batch_headers := safari_header; batch_urls := [] |} ]).
Proof.
  intros Ht Hu. unfold main. rewrite Ht, Hu, get_responses_no_urls. reflexivity.
Qed.
End EmptyDiscovery.

Lemma main_no_urls_witness :
  main (fun body : Element => body) (index_served (index_page [header_row]))
    (fun (k : nat) (headers : Headers) (address : string) => None) (in_turn 0) []
  = (Raise (AttributeError "No responses were recieved"),
     [ {| batch_headers := safari_header; batch_urls := [] |} ]).
Proof.
  apply (main_no_urls (fun body : Element => body)
           (index_served (index_page [header_row])) _ (in_turn 0) [header_row] []).
  - reflexivity.
  - reflexivity.
Defined.
